(** * Housing unit inventory for IN-CORE: the orchestration layer

    A shallow embedding of [pyncoda/ncoda_07a_generate_hui.py]
    (class [generate_hui_functions]) and the properties its design
    document states about it.

    The Python methods become functions in a state-and-exception monad
    over an explicit world (standard input, everything outside the
    process, and a log of the external operations that completed).
    Collaborators that live in other modules (pyincore, pandas' file
    output, the census workflow, the codebook and figure generators) are
    section variables: the theorems hold for every implementation of
    them.

    What [print] writes is left out; the arguments of a [print] are
    evaluated where that can raise. *)

From Stdlib Require Import ZArith List String Ascii Bool Lia DecimalString.
From stdpp Require Import base option list gmap strings.
From Stdlib Require DecimalPos DecimalZ.

Set Warnings "-register-all".

Import ListNotations.
Local Open Scope Z_scope.
Local Open Scope list_scope.

(** ** Python exceptions and outcomes *)

Inductive exn : Type :=
| KeyError
| IndexError
| TypeError
| ValueError
| OverflowError
| EOFError
| UnboundLocalError
| OSError
| ExternalError (msg : string).

Inductive outcome (A : Type) : Type :=
| Ret (a : A)
| Raise (e : exn).
Arguments Ret {A} a.
Arguments Raise {A} e.

Definition obind {A B} (o : outcome A) (k : A -> outcome B) : outcome B :=
  match o with
  | Ret a => k a
  | Raise e => Raise e
  end.

Notation "'let?' x ':=' o 'in' k" := (obind o (fun x => k))
  (at level 10, x name, o at level 100, k at level 200).

(** ** Strings the way the code uses them *)

(** [s.endswith(suf)] *)
Fixpoint endswith (s suf : string) : bool :=
  String.eqb s suf ||
  match s with
  | EmptyString => false
  | String _ t => endswith t suf
  end.

Fixpoint str_last (s : string) : option ascii :=
  match s with
  | EmptyString => None
  | String c EmptyString => Some c
  | String _ t => str_last t
  end.

(** Strings without a point in them. *)
Fixpoint no_point (s : string) : Prop :=
  match s with
  | EmptyString => True
  | String c t => c <> "."%char /\ no_point t
  end.

(** [s[:k]] and [s[k:]] for [k >= 0] *)
Fixpoint str_take (k : nat) (s : string) : string :=
  match k, s with
  | S k', String c t => String c (str_take k' t)
  | _, _ => EmptyString
  end.

Fixpoint str_drop (k : nat) (s : string) : string :=
  match k, s with
  | S k', String _ t => str_drop k' t
  | _, _ => s
  end.

Fixpoint repeat_char (c : ascii) (n : nat) : string :=
  match n with
  | O => EmptyString
  | S k => String c (repeat_char c k)
  end.

(** Characters [str.strip()] and [int()] treat as white space (ASCII part). *)
Definition is_space (c : ascii) : bool :=
  let n := nat_of_ascii c in
  ((9 <=? n)%nat && (n <=? 13)%nat) || ((28 <=? n)%nat && (n <=? 32)%nat).

Definition digit_value (c : ascii) : option Z :=
  let n := nat_of_ascii c in
  if ((48 <=? n)%nat && (n <=? 57)%nat) then Some (Z.of_nat n - 48) else None.

Fixpoint lstrip (s : string) : string :=
  match s with
  | String c t => if is_space c then lstrip t else s
  | EmptyString => EmptyString
  end.

(** White space at the end: every suffix made of white space only is
    dropped. *)
Fixpoint rstrip (s : string) : string :=
  match s with
  | EmptyString => EmptyString
  | String c t =>
      match rstrip t with
      | EmptyString => if is_space c then EmptyString else String c EmptyString
      | r => String c r
      end
  end.

(** Decimal digits with single underscores between them, as [int()]
    accepts them in base 10. [seen] says that the previous character was a
    digit. *)
Fixpoint parse_digits (s : string) (acc : Z) (seen : bool) : option Z :=
  match s with
  | EmptyString => if seen then Some acc else None
  | String c t =>
      match digit_value c with
      | Some d => parse_digits t (10 * acc + d) true
      | None =>
          if (Ascii.eqb c "_" && seen)%bool then
            match t with
            | EmptyString => None
            | String c' _ =>
                match digit_value c' with
                | Some _ => parse_digits t acc false
                | None => None
                end
            end
          else None
      end
  end.

(** [int(s)] for a string [s] (base 10, ASCII digits). *)
Definition int_of_str (s : string) : outcome Z :=
  match rstrip (lstrip s) with
  | String "-" t =>
      match parse_digits t 0 false with
      | Some n => Ret (- n)
      | None => Raise ValueError
      end
  | String "+" t =>
      match parse_digits t 0 false with
      | Some n => Ret n
      | None => Raise ValueError
      end
  | t =>
      match parse_digits t 0 false with
      | Some n => Ret n
      | None => Raise ValueError
      end
  end.


(** ** Python values that come out of JSON *)

Inductive pyval : Type :=
| VNone
| VBool (b : bool)
| VInt (n : Z)
| VStr (s : string)
| VList (xs : list pyval)
| VDict (kvs : list (string * pyval)).

Fixpoint assoc {A} (k : string) (kvs : list (string * A)) : option A :=
  match kvs with
  | [] => None
  | (k', v) :: rest => if String.eqb k k' then Some v else assoc k rest
  end.

(** [v[k]] with a string key *)
Definition getitem_key (v : pyval) (k : string) : outcome pyval :=
  match v with
  | VDict kvs =>
      match assoc k kvs with
      | Some x => Ret x
      | None => Raise KeyError
      end
  | _ => Raise TypeError
  end.

(** [xs[i]] on a sequence: negative indices count from the end. *)
Definition seq_index {A} (xs : list A) (i : Z) : outcome A :=
  let n := Z.of_nat (length xs) in
  let j := if i <? 0 then i + n else i in
  if (0 <=? j) && (j <? n) then
    match nth_error xs (Z.to_nat j) with
    | Some x => Ret x
    | None => Raise IndexError
    end
  else Raise IndexError.

(** [v[i]] with an integer index *)
Definition getitem_idx (v : pyval) (i : Z) : outcome pyval :=
  match v with
  | VList xs => seq_index xs i
  | VStr s =>
      let? c := seq_index (list_ascii_of_string s) i in
      Ret (VStr (String c EmptyString))
  | VDict _ => Raise KeyError
  | _ => Raise TypeError
  end.

(** [len(v)] *)
Definition py_len (v : pyval) : outcome Z :=
  match v with
  | VList xs => Ret (Z.of_nat (length xs))
  | VDict kvs => Ret (Z.of_nat (length kvs))
  | VStr s => Ret (Z.of_nat (String.length s))
  | _ => Raise TypeError
  end.

(** The items [for x in v] runs through. *)
Definition py_iter (v : pyval) : outcome (list pyval) :=
  match v with
  | VList xs => Ret xs
  | VDict kvs => Ret (map (fun kv => VStr (fst kv)) kvs)
  | VStr s => Ret (map (fun c => VStr (String c EmptyString)) (list_ascii_of_string s))
  | _ => Raise TypeError
  end.

(** [dataset['fileDescriptors'][0]['filename']] *)
Definition incore_filename_of (dataset : pyval) : outcome pyval :=
  let? fds := getitem_key dataset "fileDescriptors" in
  let? fd := getitem_idx fds 0 in
  getitem_key fd "filename".

(** [v == s] for a string [s]: values of another type are unequal. *)
Definition eq_str (v : pyval) (s : string) : bool :=
  match v with
  | VStr t => String.eqb t s
  | _ => false
  end.

(** [v is not None] *)
Definition is_not_None (v : pyval) : bool :=
  match v with
  | VNone => false
  | _ => true
  end.

(** The object [client.get] returns. The code calls [.json()] on it, and
    in the branch for several matches iterates over the object itself and
    subscripts it; its class is pyincore's choice, so the three
    operations are carried by the value. [resp_iter] is the number of
    items the iteration yields (the loop variable is not used). *)
Record Response : Type := {
  resp_json : outcome pyval;
  resp_iter : outcome nat;
  resp_getitem : Z -> outcome pyval
}.

(** ** Cells of a data frame

    After [astype(object)] a cell is a Python int, float, str, bool or
    None. A float is kept as what [repr] prints from: the sign, the
    shortest digit string that reads back as the same binary64 value (no
    trailing zeros, [0] for zero) and the position of the decimal point
    after the first [decpt] digits. *)

Inductive pyfloat : Type :=
| FFinite (neg : bool) (digits : string) (decpt : Z)
| FInf (neg : bool)
| FNan.

Inductive cell : Type :=
| CInt (n : Z)
| CFloat (f : pyfloat)
| CStr (s : string)
| CBool (b : bool)
| CNone.

(** [str(n)] for an int *)
Definition str_of_Z (n : Z) : string := NilZero.string_of_int (Z.to_int n).

Fixpoint digits_value (s : string) (acc : Z) : Z :=
  match s with
  | EmptyString => acc
  | String c t =>
      digits_value t (10 * acc + match digit_value c with Some d => d | None => 0 end)
  end.

Definition sign_str (neg : bool) : string := if neg then "-" else "".

(** The exponent of the scientific form: a sign and at least two digits. *)
Definition exponent_str (e : Z) : string :=
  (if e <? 0 then "-" else "+") +:+
  (if Z.abs e <? 10 then "0" else "") +:+ str_of_Z (Z.abs e).

(** [repr(x)] for a float, the text [str(x)] gives as well: scientific
    form when the decimal point would sit more than 16 digits to the right
    of the first digit or 4 or more zeros to its left, positional form
    otherwise, with [.0] appended to a whole number. *)
Definition float_repr (f : pyfloat) : string :=
  match f with
  | FNan => "nan"
  | FInf neg => sign_str neg +:+ "inf"
  | FFinite neg ds decpt =>
      let n := Z.of_nat (String.length ds) in
      sign_str neg +:+
      (if (decpt <=? -4) || (16 <? decpt) then
         str_take 1 ds +:+
         (if 1 <? n then "." +:+ str_drop 1 ds else "") +:+
         "e" +:+ exponent_str (decpt - 1)
       else if decpt <=? 0 then
         "0." +:+ repeat_char "0" (Z.to_nat (- decpt)) +:+ ds
       else if decpt <? n then
         str_take (Z.to_nat decpt) ds +:+ "." +:+ str_drop (Z.to_nat decpt) ds
       else
         ds +:+ repeat_char "0" (Z.to_nat (decpt - n)) +:+ ".0")
  end.

(** [str(cell)] *)
Definition py_str (c : cell) : string :=
  match c with
  | CInt n => str_of_Z n
  | CFloat f => float_repr f
  | CStr s => s
  | CBool true => "True"
  | CBool false => "False"
  | CNone => "None"
  end.

(** [int(x)] for a float: the whole part, towards zero. The digit string
    is the exact value of every float below 10^16 that is a whole number,
    which are the floats the code converts. *)
Definition int_of_float (f : pyfloat) : outcome Z :=
  match f with
  | FNan => Raise ValueError
  | FInf _ => Raise OverflowError
  | FFinite neg ds decpt =>
      let n := Z.of_nat (String.length ds) in
      let m :=
        if n <=? decpt then digits_value ds 0 * 10 ^ (decpt - n)
        else if decpt <=? 0 then 0
        else digits_value (str_take (Z.to_nat decpt) ds) 0 in
      Ret (if neg then - m else m)
  end.

(** [int(cell)] *)
Definition py_int (c : cell) : outcome Z :=
  match c with
  | CInt n => Ret n
  | CFloat f => int_of_float f
  | CStr s => int_of_str s
  | CBool b => Ret (if b then 1 else 0)
  | CNone => Raise TypeError
  end.

(** [lambda cell: int(cell) if str(cell).endswith('.0') else cell] *)
Definition remove_dot0 (c : cell) : outcome cell :=
  if endswith (py_str c) ".0" then
    let? n := py_int c in Ret (CInt n)
  else Ret c.

(** A float that is a whole number below 10^16: all its digits stand
    before the decimal point, which is at most 16 places in. Such a float
    prints as its digits, zeros up to the point, and [.0]. *)
Definition whole_below_1e16 (ds : string) (decpt : Z) : Prop :=
  ds <> EmptyString /\ Z.of_nat (String.length ds) <= decpt <= 16.

Definition whole_value (neg : bool) (ds : string) (decpt : Z) : Z :=
  let m := digits_value ds 0 * 10 ^ (decpt - Z.of_nat (String.length ds)) in
  if neg then - m else m.

(** A float with digits after the decimal point, the last of them not
    zero. *)
Definition fractional (ds : string) (decpt : Z) : Prop :=
  decpt < Z.of_nat (String.length ds) /\
  exists c, str_last ds = Some c /\ c <> "0"%char.

(** A cell that is not a text ending in [.0]. *)
Definition no_dot0_text (c : cell) : Prop :=
  match c with
  | CStr s => endswith s ".0" = false
  | _ => True
  end.

(** ** Data frames: rows of cells over one column list *)

Definition DataFrame : Type := list (list cell).

Fixpoint mapO {A B} (f : A -> outcome B) (xs : list A) : outcome (list B) :=
  match xs with
  | [] => Ret []
  | x :: rest =>
      let? y := f x in
      let? ys := mapO f rest in
      Ret (y :: ys)
  end.

(** The type pandas gives a column it rebuilds from Python objects. *)
Inductive dtype : Type :=
| DtObject
| DtBool
| DtInt
| DtFloat.

Definition is_text (c : cell) : bool := match c with CStr _ => true | _ => false end.
Definition is_bool (c : cell) : bool := match c with CBool _ => true | _ => false end.
Definition is_float (c : cell) : bool := match c with CFloat _ => true | _ => false end.
Definition is_int (c : cell) : bool := match c with CInt _ => true | _ => false end.
Definition is_none (c : cell) : bool := match c with CNone => true | _ => false end.
Definition is_number (c : cell) : bool := is_int c || is_float c.

(** What [lib.maybe_convert_objects] makes of the values of a column: a
    text leaves the column as objects; bools make a bool column when
    there is nothing else; numbers make a float column as soon as one of
    them is a float (NaN is one) or a value is missing, an int column
    otherwise. A column of [None] only, or without rows, stays as it
    is. *)
Definition infer_dtype (cs : list cell) : dtype :=
  if existsb is_text cs then DtObject
  else if existsb is_bool cs then (if forallb is_bool cs then DtBool else DtObject)
  else if existsb is_float cs then DtFloat
  else if existsb is_int cs then (if existsb is_none cs then DtFloat else DtInt)
  else DtObject.

Fixpoint rstrip_zeros (s : string) : string :=
  match s with
  | EmptyString => EmptyString
  | String c t =>
      match rstrip_zeros t with
      | EmptyString => if Ascii.eqb c "0" then EmptyString else String c EmptyString
      | r => String c r
      end
  end.

(** [float(n)] for an int, exact up to 2^53: the digits of [n] without
    the zeros at their end, the decimal point after all of them. *)
Definition float_of_Z (n : Z) : pyfloat :=
  if n =? 0 then FFinite false "0" 1
  else
    let ds := str_of_Z (Z.abs n) in
    FFinite (n <? 0) (rstrip_zeros ds) (Z.of_nat (String.length ds)).

(** A value stored in a column of a type: in a float column an int
    becomes the float of the same value and [None] becomes NaN. *)
Definition astype (t : dtype) (c : cell) : cell :=
  match t, c with
  | DtFloat, CInt n => CFloat (float_of_Z n)
  | DtFloat, CNone => CFloat FNan
  | _, _ => c
  end.

(** The cells of column [j], from the first row to the last. *)
Definition column (j : nat) (df : DataFrame) : list cell :=
  omap (fun row : list cell => row !! j) df.

(** Every column gets the type inferred from its values. *)
Definition infer_columns (df : DataFrame) : DataFrame :=
  map (fun row : list cell => imap (fun j c => astype (infer_dtype (column j df)) c) row) df.

(** [df.applymap(f)]: every cell through [f]; the first exception ends
    the call. pandas goes column by column, which only decides which
    exception comes first. It maps [f] over the values of a column as
    Python objects and rebuilds the column from the results, so each
    column of the new frame has the type inferred from what [f]
    returned. *)
Definition applymap (f : cell -> outcome cell) (df : DataFrame) : outcome DataFrame :=
  let? mapped := mapO (mapO f) df in
  Ret (infer_columns mapped).

(** [pd.concat(frames, ignore_index=True, axis=0)] for frames that share
    their columns: the rows of the frames one after the other; no frame at
    all is an error. *)
Definition pd_concat (frames : list DataFrame) : outcome DataFrame :=
  match frames with
  | [] => Raise ValueError
  | _ => Ret (concat frames)
  end.

(** ** The configuration held by [generate_hui_functions] *)

Record County : Type := {
  FIPS_Code : string;
  Name : string
}.

Record Community : Type := {
  community_name : string;
  counties : list (string * County)
}.

(** A Python dict that is walked in insertion order is a list of items
    with distinct keys; [for k in d.keys(): ... d[k] ...] visits the
    items in that order. *)
Record Self : Type := {
  communities : list (string * Community);
  seed : Z;
  version : string;
  version_text : string;
  basevintage : Z;
  outputfolder : string;
  outputfolders : gmap string string;
  savefiles : bool
}.

(** The arguments [hui_workflow_functions] is constructed with. *)
Record HuiCtx : Type := {
  ctx_state_county : string;
  ctx_state_county_name : string;
  ctx_seed : Z;
  ctx_version : string;
  ctx_version_text : string;
  ctx_basevintage : Z;
  ctx_outputfolder : string;
  ctx_outputfolders : gmap string string
}.

Record FigureArgs : Type := {
  fig_input_df : DataFrame;
  fig_variable : string;
  fig_by_variable : string;
  fig_communities : list (string * Community);
  fig_community : string;
  fig_year : Z;
  fig_outputfolders : gmap string string
}.

Record CodebookArgs : Type := {
  cb_input_df : DataFrame;
  cb_header_title : string;
  cb_projectoverview : string;
  cb_keyterms : string;
  cb_communities : list (string * Community);
  cb_community : string;
  cb_year : Z;
  cb_output_filename : string;
  cb_outputfolders : gmap string string;
  cb_figures : list string;
  cb_image_path : string
}.

Record Metadata : Type := {
  md_title : string;
  md_description : string;
  md_dataType : string;
  md_format : string
}.

(** ** The world and the log of completed external operations *)

Inductive Event : Type :=
| EvIncoreClient
| EvGet (url text : string)
| EvDirectoryDesign (state_county_name outputfolder : string)
| EvRunHuiWorkflow (ctx : HuiCtx)
| EvFinalPolishHui (ctx : HuiCtx)
| EvSaveIncoreVersion2 (ctx : HuiCtx) (df : DataFrame)
| EvToCsv (df : DataFrame) (path : string)
| EvIncomeDistribution (by_variable community : string)
| EvCreateCodebook (output_filename : string)
| EvCreateDataset (md : Metadata)
| EvAddFiles (dataset_id : pyval) (files : list string).

(** The tables [to_csv] wrote among the operations of a log, with their
    paths. *)
Definition csv_writes (evs : list Event) : list (DataFrame * string) :=
  flat_map (fun ev => match ev with
                      | EvToCsv df path => [(df, path)]
                      | _ => []
                      end) evs.

(** The frames [save_incore_version2] returned among the operations of a
    log, each with the FIPS code of its county. *)
Definition saved_frames (evs : list Event) : list (string * DataFrame) :=
  flat_map (fun ev => match ev with
                      | EvSaveIncoreVersion2 ctx df => [(ctx_state_county ctx, df)]
                      | _ => []
                      end) evs.

Record World (X : Type) : Type := {
  stdin : list string;
  ext : X;
  trace : list Event
}.
Arguments stdin {X} w.
Arguments ext {X} w.
Arguments trace {X} w.
Arguments Build_World {X} stdin ext trace.

Definition M (X A : Type) : Type := World X -> outcome A * World X.

Definition ret {X A} (a : A) : M X A := fun w => (Ret a, w).
Definition raise {X A} (e : exn) : M X A := fun w => (Raise e, w).
Definition bind {X A B} (m : M X A) (k : A -> M X B) : M X B :=
  fun w =>
    match m w with
    | (Ret a, w') => k a w'
    | (Raise e, w') => (Raise e, w')
    end.
Definition lift {X A} (o : outcome A) : M X A := fun w => (o, w).

Notation "'let*' x ':=' m 'in' k" := (bind m (fun x => k))
  (at level 10, x name, m at level 100, k at level 200).

(** One computation run two times in a row. *)
Definition twice {X A} (m : M X A) : M X (A * A) :=
  let* a := m in
  let* b := m in
  ret (a, b).

(** A collaborator that only reads what is outside the process. *)
Definition query {X A} (ev : Event) (f : X -> outcome A) : M X A :=
  fun w =>
    match f (ext w) with
    | Ret a => (Ret a, Build_World (stdin w) (ext w) (trace w ++ [ev]))
    | Raise e => (Raise e, w)
    end.

(** A collaborator that may change it. The operation is logged, with
    what it returned, when it completes. *)
Definition call {X A} (ev : A -> Event) (f : X -> outcome A * X) : M X A :=
  fun w =>
    match f (ext w) with
    | (Ret a, x') => (Ret a, Build_World (stdin w) x' (trace w ++ [ev a]))
    | (Raise e, x') => (Raise e, Build_World (stdin w) x' (trace w))
    end.

(** [input(prompt)]: the next line of standard input, [EOFError] at its
    end. *)
Definition input {X} : M X string :=
  fun w =>
    match stdin w with
    | [] => (Raise EOFError, w)
    | line :: rest => (Ret line, Build_World rest (ext w) (trace w))
    end.

(** [d[k] = v] on a dict kept in insertion order: a present key keeps its
    place and takes the new value, a new key goes last. *)
Fixpoint dict_set {A} (k : string) (v : A) (d : list (string * A)) : list (string * A) :=
  match d with
  | [] => [(k, v)]
  | (k', v') :: rest =>
      if String.eqb k k' then (k', v) :: rest else (k', v') :: dict_set k v rest
  end.

Definition dict_values {A} (d : list (string * A)) : list A := map snd d.

(** The keys of a dict built by assignments, in the order in which they
    were first assigned. *)
Definition add_key (keys : list string) (k : string) : list string :=
  if existsb (String.eqb k) keys then keys else keys ++ [k].

Definition first_seen (ks : list string) : list string := fold_left add_key ks [].

(** Strings with a point somewhere in them. *)
Fixpoint has_point (s : string) : Prop :=
  match s with
  | EmptyString => False
  | String c t => c = "."%char \/ has_point t
  end.

(** The local variables of [generate_hui_v2_for_incore] that outlive a
    turn of the loop over the communities; [None] is a name not bound
    yet. *)
Record Locals : Type := {
  l_dataset_id : option pyval;
  l_outputfolders : option (gmap string string)
}.

(** What one turn of that loop ends in: the method returns, or the loop
    goes on. *)
Inductive Turn : Type :=
| Returned (v : pyval)
| Continue (l : Locals).

(** ** The constructor

    [__init__] stores its arguments and makes the output folder when
    [os.path.exists] does not find it. The file system is the state;
    [os.path.exists] reads it and [os.mkdir] may change it. *)

Section Constructor.

Context {FS : Type}.
Variable path_exists : string -> FS -> bool.
Variable mkdir : string -> FS -> outcome unit * FS.

Definition init (communities : list (string * Community)) (seed : Z)
    (version version_text : string) (basevintage : Z) (outputfolder : string)
    (outputfolders : gmap string string) (savefiles : bool)
  : FS -> outcome Self * FS :=
  fun fs =>
    let self :=
      {| communities := communities;
         seed := seed;
         version := version;
         version_text := version_text;
         basevintage := basevintage;
         outputfolder := outputfolder;
         outputfolders := outputfolders;
         savefiles := savefiles |} in
    if negb (path_exists (outputfolder) fs) then
      match mkdir outputfolder fs with
      | (Ret _, fs') => (Ret self, fs')
      | (Raise e, fs') => (Raise e, fs')
      end
    else (Ret self, fs).

End Constructor.

(** The same configuration with another seed. *)
Definition with_seed (self : Self) (s : Z) : Self :=
  {| communities := communities self;
     seed := s;
     version := version self;
     version_text := version_text self;
     basevintage := basevintage self;
     outputfolder := outputfolder self;
     outputfolders := outputfolders self;
     savefiles := savefiles self |}.

(** ** Stand-ins for the collaborators

    Small executable collaborators to run the methods on: a catalog with
    canned search results, answers that can be subscripted, a workflow
    that makes a frame of one row per county. What is outside the process
    is a counter of the operations that changed it. *)

Definition dataset_entry (id title filename : string) : pyval :=
  VDict [("id", VStr id); ("title", VStr title);
         ("fileDescriptors", VList [VDict [("filename", VStr filename)]])].

(** An answer whose JSON body is the list of matches and that can be
    iterated over and subscripted, each item holding its dataset under
    the key [dataset]. *)
Definition listed_response (matches : list pyval) : Response :=
  {| resp_json := Ret (VList matches);
     resp_iter := Ret (length matches);
     resp_getitem := fun i =>
       let? d := seq_index matches i in Ret (VDict [("dataset", d)]) |}.

(** An answer of the class the requests library defines: iterating over
    it yields the body in pieces of 128 bytes, and it has no
    subscript. *)
Definition requests_response (body : pyval) (content_length : nat) : Response :=
  {| resp_json := Ret body;
     resp_iter := Ret (Nat.div (content_length + 127) 128);
     resp_getitem := fun _ => Raise TypeError |}.

Definition canned_IncoreClient (x : nat) : outcome unit := Ret tt.

Definition canned_base_url (client : unit) : string :=
  "https://incore.ncsa.illinois.edu/data/api/datasets/".

Definition canned_urljoin (base url : string) : string := base +:+ url.

Definition canned_get (catalog : list (string * list pyval))
    (client : unit) (url text : string) (x : nat) : outcome Response :=
  Ret (listed_response (match assoc text catalog with
                        | Some matches => matches
                        | None => []
                        end)).

Definition canned_create_dataset (client : unit) (md : Metadata) (x : nat)
  : outcome pyval * nat :=
  (Ret (VDict [("id", VStr ("id-of-" +:+ md_title md))]), S x).

Definition canned_add_files (client : unit) (dataset_id : pyval) (files : list string)
    (x : nat) : outcome pyval * nat :=
  (Ret dataset_id, S x).

Definition canned_directory_design (state_county_name outputfolder : string) (x : nat)
  : outcome (gmap string string) * nat :=
  (Ret {[ "top" := outputfolder +:+ "/" +:+ state_county_name ]}, S x).

(** One housing unit per county: its county, a code that a join left as
    [4.0], an income of [45231.5]. *)
Definition canned_frame (ctx : HuiCtx) : DataFrame :=
  [[CStr (ctx_state_county ctx); CStr (ctx_state_county_name ctx);
    CFloat (FFinite false "4" 1); CFloat (FFinite false "452315" 5)]].

Definition canned_run_hui_workflow (ctx : HuiCtx) (x : nat)
  : outcome (gmap string DataFrame) * nat :=
  (Ret {[ "primary" := canned_frame ctx ]}, S x).

Definition canned_pass (ctx : HuiCtx) (df : DataFrame) (x : nat)
  : outcome DataFrame * nat :=
  (Ret df, S x).

Definition canned_income_distribution (args : FigureArgs) (ds : unit) (x : nat)
  : outcome string * nat :=
  (Ret ("income_by_" +:+ fig_by_variable args), S x).

Definition canned_create_codebook (args : CodebookArgs) (ds : unit) (x : nat)
  : outcome unit * nat :=
  (Ret tt, S x).

Definition canned_to_csv (df : DataFrame) (path : string) (x : nat)
  : outcome unit * nat :=
  (Ret tt, S x).

(** The table of two housing units after a join: a vacancy code for the
    first and none for the second, and their incomes. *)
Definition join_artifact : DataFrame :=
  [[CStr "37155"; CFloat (FFinite false "4" 1); CFloat (FFinite false "452315" 5)];
   [CStr "37155"; CFloat FNan; CFloat (FFinite false "5" 5)]].

(** A file system on which one path cannot be written. *)
Definition failing_to_csv (bad : string) (df : DataFrame) (path : string) (x : nat)
  : outcome unit * nat :=
  if String.eqb path bad then (Raise OSError, x) else (Ret tt, S x).

(** A file system that is the list of its folders: making a folder that
    is there already is an error. *)
Definition listed_exists (path : string) (fs : list string) : bool :=
  existsb (String.eqb path) fs.

Definition listed_mkdir (path : string) (fs : list string) : outcome unit * list string :=
  if listed_exists path fs then (Raise OSError, fs) else (Ret tt, path :: fs).

Definition robeson : County :=
  {| FIPS_Code := "37155"; Name := "Robeson County, NC" |}.

Definition galveston : County :=
  {| FIPS_Code := "48167"; Name := "Galveston County, TX" |}.

Definition lumberton : Community :=
  {| community_name := "Lumberton, NC"; counties := [("1", robeson)] |}.

Definition two_counties : Community :=
  {| community_name := "Two counties"; counties := [("1", robeson); ("2", galveston)] |}.

(** Two entries of the county list with one FIPS code. *)
Definition robeson_again : County :=
  {| FIPS_Code := "37155"; Name := "Robeson County" |}.

Definition repeated_county : Community :=
  {| community_name := "Repeated"; counties := [("1", robeson); ("2", robeson_again)] |}.

Definition config (cs : list (string * Community)) : Self :=
  {| communities := cs;
     seed := 9876;
     version := "2.0.0";
     version_text := "v2-0-0";
     basevintage := 2010;
     outputfolder := "OutputData";
     outputfolders := ∅;
     savefiles := true |}.

Definition lumberton_title : string :=
  "Housing Unit Inventory v2.0.0 data for Lumberton, NC".

Definition lumberton_filename : string := "hui_v2-0-0_Lumberton_NC_2010_rs9876".

(** A catalog that holds the table of Lumberton, one that holds a table
    of that title under another file name, one that holds two tables of
    that title, and one that holds the table of the second community of
    three. *)
Definition catalog_found : list (string * list pyval) :=
  [(lumberton_title,
    [dataset_entry "6230b8a8" lumberton_title (lumberton_filename +:+ ".csv")])].


Definition catalog_two : list (string * list pyval) :=
  [(lumberton_title,
    [dataset_entry "6230b8a8" lumberton_title (lumberton_filename +:+ ".csv");
     dataset_entry "7341c9b9" lumberton_title (lumberton_filename +:+ ".csv")])].

Definition catalog_second : list (string * list pyval) :=
  [("Housing Unit Inventory v2.0.0 data for Two counties",
    [dataset_entry "8452dac0" "Housing Unit Inventory v2.0.0 data for Two counties"
       "hui_v2-0-0_Two_2010_rs9876.csv"])].

Definition three_communities : list (string * Community) :=
  [("Lumberton_NC", lumberton); ("Two", two_counties); ("Repeated", repeated_county)].

Definition no_locals : Locals := {| l_dataset_id := None; l_outputfolders := None |}.

Definition start (lines : list string) : World nat :=
  {| stdin := lines; ext := O; trace := [] |}.

(** ** The methods of [generate_hui_functions] *)

Section Methods.

(** Everything outside the process (the IN-CORE services, the file
    system, the census sources) and the collaborators that work on
    it. *)
Context {X Client DataStructure : Type}.

(** pyincore: [IncoreClient()], [DataService(client).base_url],
    [client.get(url, params={"text": text})],
    [create_dataset(properties=...)], [add_files_to_dataset(id, files)]. *)
Variable IncoreClient : X -> outcome Client.
Variable base_url : Client -> string.
Variable client_get : Client -> string -> string -> X -> outcome Response.
Variable create_dataset : Client -> Metadata -> X -> outcome pyval * X.
Variable add_files_to_dataset :
  Client -> pyval -> list string -> X -> outcome pyval * X.

(** [urllib.parse.urljoin] and [sys.path[0]] *)
Variable urljoin : string -> string -> string.
Variable sys_path_0 : string.

(** The rest of pyncoda: [directory_design], the three methods of
    [hui_workflow_functions] the code calls, the figure and the
    codebook generators, the IN-CORE data structure table. *)
Variable directory_design : string -> string -> X -> outcome (gmap string string) * X.
Variable run_hui_workflow : HuiCtx -> X -> outcome (gmap string DataFrame) * X.
Variable final_polish_hui : HuiCtx -> DataFrame -> X -> outcome DataFrame * X.
Variable save_incore_version2 : HuiCtx -> DataFrame -> X -> outcome DataFrame * X.
Variable income_distribution : FigureArgs -> DataStructure -> X -> outcome string * X.
Variable create_codebook : CodebookArgs -> DataStructure -> X -> outcome unit * X.
Variable incore_v2_DataStructure : DataStructure.

(** pandas: [df.to_csv(path, index=False)] *)
Variable to_csv : DataFrame -> string -> X -> outcome unit * X.

Record DataService : Type := {
  ds_client : Client;
  ds_base_url : string
}.

Definition loginto_incore_dataservice : M X DataService :=
  let* client := query EvIncoreClient IncoreClient in
  let data_service := {| ds_client := client; ds_base_url := base_url client |} in
  ret data_service.

Definition check_file_on_incore (title : string) : M X Response :=
  let* data_service := loginto_incore_dataservice in
  let url := urljoin (ds_base_url data_service) "search" in
  let search_title := title in
  let* matched_datasets :=
    query (EvGet url search_title) (client_get (ds_client data_service) url search_title) in
  ret matched_datasets.

(** The loop that prints the candidates: turn [i] evaluates
    [matched_datasets[i]['dataset']['id']]. *)
Fixpoint print_candidates (r : Response) (i : Z) (n : nat) : outcome unit :=
  match n with
  | O => Ret tt
  | S k =>
      let? item := resp_getitem r i in
      let? d := getitem_key item "dataset" in
      let? _ := getitem_key d "id" in
      print_candidates r (i + 1) k
  end.

Definition return_dataservice_id (title output_filename : string) : M X pyval :=
  let* matched_datasets := check_file_on_incore title in
  let* j := lift (resp_json matched_datasets) in
  let* match_count := lift (py_len j) in
  if match_count =? 1 then
    let* j' := lift (resp_json matched_datasets) in
    let* items := lift (py_iter j') in
    match items with
    | dataset :: _ =>
        let* incore_filename := lift (incore_filename_of dataset) in
        let* t := lift (getitem_key dataset "title") in
        if eq_str t title && eq_str incore_filename (output_filename +:+ ".csv") then
          let* dataset_id := lift (getitem_key dataset "id") in
          ret dataset_id
        else
          ret VNone
    | [] => ret VNone
    end
  else if match_count =? 0 then
    ret VNone
  else
    let* n := lift (resp_iter matched_datasets) in
    let* _ := lift (print_candidates matched_datasets 0 n) in
    let* line := input in
    let* k := lift (int_of_str line) in
    let* item := lift (resp_getitem matched_datasets k) in
    let* d := lift (getitem_key item "dataset") in
    let* dataset_id := lift (getitem_key d "id") in
    ret dataset_id.


(** The loop over the counties of one community. The frame of a county
    is stored under its FIPS code. *)
Fixpoint county_loop (self : Self) (cs : list (string * County))
    (county_list : string) (hui_incore_county_df : list (string * DataFrame))
    (outputfolders : option (gmap string string))
  : M X (string * list (string * DataFrame) * option (gmap string string)) :=
  match cs with
  | [] => ret (county_list, hui_incore_county_df, outputfolders)
  | (_, county) :: rest =>
      let state_county := FIPS_Code county in
      let state_county_name := Name county in
      let county_list :=
        county_list +:+ state_county_name +:+ ": county FIPS Code " +:+ state_county in
      let* outputfolders :=
        call (fun _ => EvDirectoryDesign state_county_name (outputfolder self))
             (directory_design state_county_name (outputfolder self)) in
      let generate_df :=
        {| ctx_state_county := state_county;
           ctx_state_county_name := state_county_name;
           ctx_seed := seed self;
           ctx_version := version self;
           ctx_version_text := version_text self;
           ctx_basevintage := basevintage self;
           ctx_outputfolder := outputfolder self;
           ctx_outputfolders := outputfolders |} in
      let* base_hui_df :=
        call (fun _ => EvRunHuiWorkflow generate_df) (run_hui_workflow generate_df) in
      let* primary :=
        lift (match base_hui_df !! "primary" with
              | Some df => Ret df
              | None => Raise KeyError
              end) in
      let* hui_df :=
        call (fun _ => EvFinalPolishHui generate_df) (final_polish_hui generate_df primary) in
      let* v2 :=
        call (EvSaveIncoreVersion2 generate_df) (save_incore_version2 generate_df hui_df) in
      county_loop self rest county_list
        (dict_set state_county v2 hui_incore_county_df) (Some outputfolders)
  end.

(** The loop that draws the income figures. *)
Fixpoint figures_loop (self : Self) (community : string) (hui_incore_df : DataFrame)
    (outputfolders : gmap string string) (by_vars : list string)
    (figures_list : list string) : M X (list string) :=
  match by_vars with
  | [] => ret figures_list
  | by_var :: rest =>
      let* income_by_var_figure :=
        call (fun _ => EvIncomeDistribution by_var community)
             (income_distribution
                {| fig_input_df := hui_incore_df;
                   fig_variable := "randincome";
                   fig_by_variable := by_var;
                   fig_communities := communities self;
                   fig_community := community;
                   fig_year := basevintage self;
                   fig_outputfolders := outputfolders |}
                incore_v2_DataStructure) in
      let filename := income_by_var_figure +:+ ".png" in
      figures_loop self community hui_incore_df outputfolders rest
        (figures_list ++ [filename])
  end.

Definition hui_description (county_list : string) : string :=
  "2010 Housing Unit Inventory v2.0.0 with required IN-CORE columns. " +:+
  "Compatible with pyincore v1.4. " +:+
  "Unit of observation is housing unit. " +:+
  "Detailed characteristics include number of persons, race, ethnicity, " +:+
  "vacancy type, group quarters type, and household income. " +:+
  "For more details on this data file refer to " +:+
  "Rosenheim, Nathanael (2021) 'Detailed Household and " +:+
  "Housing Unit Characteristics: Data and Replication Code.' " +:+
  "DesignSafe-CI. https://doi.org/10.17603/ds2-jwf6-s535. " +:+
  "For more details on the replication code, refer to " +:+
  "Rosenheim, Nathanael. (2022). npr99/intersect-community-data. Zenodo. " +:+
  "https://doi.org/10.5281/zenodo.6476122. " +:+
  "File includes data for " +:+ county_list.

Definition title_of (c : Community) : string :=
  "Housing Unit Inventory v2.0.0 data for " +:+ community_name c.

Definition output_filename_of (self : Self) (community : string) : string :=
  "hui_" +:+ version_text self +:+ "_" +:+ community +:+ "_" +:+
  str_of_Z (basevintage self) +:+ "_rs" +:+ str_of_Z (seed self).

Definition local_var {A} (v : option A) : outcome A :=
  match v with
  | Some a => Ret a
  | None => Raise UnboundLocalError
  end.

Definition dict_get (d : gmap string string) (k : string) : outcome string :=
  match d !! k with
  | Some v => Ret v
  | None => Raise KeyError
  end.

(** Lines 189 to 223: the frames of the counties, combined and with the
    [.0] removed. *)
Definition combine_counties (self : Self) (c : Community) (l : Locals)
  : M X (string * DataFrame * DataFrame * option (gmap string string)) :=
  let* r := county_loop self (counties c) "" [] (l_outputfolders l) in
  let '(county_list, hui_incore_county_df, outputfolders) := r in
  let* hui_incore_df := lift (pd_concat (dict_values hui_incore_county_df)) in
  let* hui_incore_df_fixed := lift (applymap remove_dot0 hui_incore_df) in
  ret (county_list, hui_incore_df, hui_incore_df_fixed, outputfolders).

Definition savefile_path (top output_filename : string) : string :=
  sys_path_0 +:+ "/" +:+ (top +:+ "/" +:+ output_filename +:+ ".csv").

Definition common_path (top output_filename : string) : string :=
  (top +:+ "/../../" +:+ output_filename) +:+ ".csv".

(** Lines 225 to 232: the table goes to the folder of the run and to the
    common directory. *)
Definition save_results (hui_incore_df_fixed : DataFrame)
    (outputfolders : option (gmap string string)) (output_filename : string)
  : M X (string * gmap string string) :=
  let* outputfolders := lift (local_var outputfolders) in
  let* top := lift (dict_get outputfolders "top") in
  let csv_filepath := top +:+ "/" +:+ output_filename +:+ ".csv" in
  let savefile := sys_path_0 +:+ "/" +:+ csv_filepath in
  let* _ :=
    call (fun _ => EvToCsv hui_incore_df_fixed savefile)
         (to_csv hui_incore_df_fixed savefile) in
  let* top' := lift (dict_get outputfolders "top") in
  let common_directory := top' +:+ "/../../" +:+ output_filename in
  let* _ :=
    call (fun _ => EvToCsv hui_incore_df_fixed (common_directory +:+ ".csv"))
         (to_csv hui_incore_df_fixed (common_directory +:+ ".csv")) in
  ret (csv_filepath, outputfolders).

(** Lines 234 to 304: figures, codebook, upload. *)
Definition explore_and_upload (self : Self) (community title output_filename : string)
    (county_list : string) (hui_incore_df hui_incore_df_fixed : DataFrame)
    (csv_filepath : string) (outputfolders : gmap string string) : M X pyval :=
  let* figures_list :=
    figures_loop self community hui_incore_df outputfolders
      ["race"; "hispan"; "family"] [] in
  let CommunitySourceData_filepath := "pyncoda\CommunitySourceData\api_census_gov" in
  let keyterms_filepath := CommunitySourceData_filepath +:+ "\acg_00a_keyterms.md" in
  let projectoverview_filepath := "pyncoda\ncoda_00a_projectoverview.md" in
  let* _ :=
    call (fun _ => EvCreateCodebook output_filename)
         (create_codebook
            {| cb_input_df := hui_incore_df_fixed;
               cb_header_title := "Housing Unit Inventory";
               cb_projectoverview := projectoverview_filepath;
               cb_keyterms := keyterms_filepath;
               cb_communities := communities self;
               cb_community := community;
               cb_year := basevintage self;
               cb_output_filename := output_filename;
               cb_outputfolders := outputfolders;
               cb_figures := figures_list;
               cb_image_path := "IN-CORE_HRRC_Banner.png" |}
            incore_v2_DataStructure) in
  let dataset_metadata :=
    {| md_title := title;
       md_description := hui_description county_list;
       md_dataType := "incore:housingUnitInventory";
       md_format := "table" |} in
  let* data_service := loginto_incore_dataservice in
  let* created_dataset :=
    call (fun _ => EvCreateDataset dataset_metadata)
         (create_dataset (ds_client data_service) dataset_metadata) in
  let* dataset_id := lift (getitem_key created_dataset "id") in
  let* _ :=
    lift (match dataset_id with
          | VStr _ => Ret tt
          | _ => Raise TypeError
          end) in
  let files := [csv_filepath] in
  let* full_dataset :=
    call (fun _ => EvAddFiles dataset_id files)
         (add_files_to_dataset (ds_client data_service) dataset_id files) in
  ret dataset_id.

(** The body of the loop over the communities from the line after the
    publish check on. *)
Definition generate_community (self : Self) (community : string) (c : Community)
    (title output_filename : string) (l : Locals) : M X Turn :=
  let* r := combine_counties self c l in
  let '(county_list, hui_incore_df, hui_incore_df_fixed, outputfolders) := r in
  let* s := save_results hui_incore_df_fixed outputfolders output_filename in
  let '(csv_filepath, outputfolders) := s in
  let* dataset_id :=
    explore_and_upload self community title output_filename county_list
      hui_incore_df hui_incore_df_fixed csv_filepath outputfolders in
  ret (Continue {| l_dataset_id := Some dataset_id;
                   l_outputfolders := Some outputfolders |}).

(** One turn of the loop over the communities. *)
Definition community_turn (self : Self) (community : string) (c : Community)
    (l : Locals) : M X Turn :=
  let title := title_of c in
  let output_filename := output_filename_of self community in
  let* dataset_id := return_dataservice_id title output_filename in
  if is_not_None dataset_id then
    ret (Returned dataset_id)
  else
    generate_community self community c title output_filename
      {| l_dataset_id := Some dataset_id; l_outputfolders := l_outputfolders l |}.

(** The loop over the communities: it ends when a turn returns or when
    the communities are used up. *)
Fixpoint communities_loop (self : Self) (cs : list (string * Community)) (l : Locals)
  : M X Turn :=
  match cs with
  | [] => ret (Continue l)
  | (community, c) :: rest =>
      let* t := community_turn self community c l in
      match t with
      | Returned v => ret (Returned v)
      | Continue l' => communities_loop self rest l'
      end
  end.

(** After the loop comes [return dataset_id]. *)
Definition generate_hui_v2_for_incore (self : Self) : M X pyval :=
  let* t :=
    communities_loop self (communities self)
      {| l_dataset_id := None; l_outputfolders := None |} in
  match t with
  | Returned v => ret v
  | Continue l => lift (local_var (l_dataset_id l))
  end.

(** ** Notions the properties are stated with *)

Definition fips_codes (c : Community) : list string :=
  map (fun kc => FIPS_Code (snd kc)) (counties c).

(** A computation that, when it completes, has added to the log only
    operations with the property [Q]. *)
Definition logs {A} (Q : Event -> Prop) (m : M X A) : Prop :=
  forall w a w',
    m w = (Ret a, w') -> exists evs, trace w' = trace w ++ evs /\ Forall Q evs.

Definition not_to_csv (ev : Event) : Prop := csv_writes [ev] = [].

(** A computation that, however it ends, has added to the log only
    operations with the property [Q]. *)
Definition logs_always {A} (Q : Event -> Prop) (m : M X A) : Prop :=
  forall w o w',
    m w = (o, w') -> exists evs, trace w' = trace w ++ evs /\ Forall Q evs.

(** Operations that come before the tables are written: neither a write
    nor a change to the catalog. *)
Definition before_upload (ev : Event) : Prop :=
  match ev with
  | EvToCsv _ _ | EvCreateDataset _ | EvAddFiles _ _ => False
  | _ => True
  end.

Definition search_url (client : Client) : string := urljoin (base_url client) "search".

(** The world after a search of the catalog: nothing moved, the two
    operations are in the log. *)
Definition after_search (w : World X) (client : Client) (title : string) : World X :=
  {| stdin := stdin w;
     ext := ext w;
     trace := trace w ++ [EvIncoreClient; EvGet (search_url client) title] |}.

(** Modelled from the spec: [hui_workflow_functions] and
    [directory_design] are not part of this file. The design document
    has every output of a county derive solely from the county run
    context (FIPS code, name, seed, version, vintage) and the two
    upstream sources (section 3), and has the path resolver return its
    paths from the name of the geography and the base output location
    (section 6). For one snapshot of the sources, what each of the four
    returns when it completes is therefore the same wherever it is
    called with the same arguments. Whether it completes, and everything
    about the catalog, the files and standard input, is left open. *)
Record generation_by_context : Prop := {
  by_directory_design : forall name folder x y o1 o2,
      fst (directory_design name folder x) = Ret o1 ->
      fst (directory_design name folder y) = Ret o2 -> o1 = o2;
  by_run_hui_workflow : forall ctx x y a b,
      fst (run_hui_workflow ctx x) = Ret a ->
      fst (run_hui_workflow ctx y) = Ret b -> a = b;
  by_final_polish_hui : forall ctx df x y a b,
      fst (final_polish_hui ctx df x) = Ret a ->
      fst (final_polish_hui ctx df y) = Ret b -> a = b;
  by_save_incore_version2 : forall ctx df x y a b,
      fst (save_incore_version2 ctx df x) = Ret a ->
      fst (save_incore_version2 ctx df y) = Ret b -> a = b
}.

(** Two lists of written tables that are the same as far as both go. *)
Definition agree_so_far (ws1 ws2 : list (DataFrame * string)) : Prop :=
  ws1 `prefix_of` ws2 \/ ws2 `prefix_of` ws1.

(** The two tables a community is written to. *)
Definition tables_of (df : DataFrame) (top output_filename : string)
  : list (DataFrame * string) :=
  [(df, savefile_path top output_filename); (df, common_path top output_filename)].

(** A turn that went on to the next community. *)
Definition continues (o : outcome Turn) : Prop := exists l, o = Ret (Continue l).

(** A run in which every community was generated: no publish check
    found a dataset and nothing failed. *)
Definition generates_all (self : Self) (w : World X) : Prop :=
  exists l w',
    communities_loop self (communities self)
      {| l_dataset_id := None; l_outputfolders := None |} w
    = (Ret (Continue l), w').

(** The answer of the catalog holds a dataset with the title and the
    file name looked for. *)
Definition holds_match (r : Response) (title output_filename : string) (id : pyval)
  : Prop :=
  exists matches dataset,
    resp_json r = Ret (VList matches) /\
    In dataset matches /\
    getitem_key dataset "title" = Ret (VStr title) /\
    incore_filename_of dataset = Ret (VStr (output_filename +:+ ".csv")) /\
    getitem_key dataset "id" = Ret id.

(** C5 as it is written: whenever the catalog holds a matching dataset,
    two checks in a row return one id, the id of a matching dataset. *)
Definition check_repeats (title output_filename : string) (w : World X) : Prop :=
  forall client r,
    IncoreClient (ext w) = Ret client ->
    client_get client (search_url client) title (ext w) = Ret r ->
    (exists id, holds_match r title output_filename id) ->
    exists id,
      holds_match r title output_filename id /\
      fst (twice (return_dataservice_id title output_filename) w) = Ret (id, id).

Lemma check_file_on_incore_answers (w : World X) (title : string) (client : Client)
    (r : Response) :
  IncoreClient (ext w) = Ret client ->
  client_get client (search_url client) title (ext w) = Ret r ->
  check_file_on_incore title w = (Ret r, after_search w client title).
Proof.
  intros Hc Hg.
  unfold check_file_on_incore, loginto_incore_dataservice, bind, query, ret.
  rewrite Hc. cbn. unfold search_url in Hg. rewrite Hg.
  unfold after_search, search_url. cbn. rewrite <- app_assoc. reflexivity.
Qed.

Arguments incore_filename_of : simpl never.
Arguments getitem_key : simpl never.

Ltac step_check Hc Hg :=
  unfold return_dataservice_id, bind at 1;
  rewrite (check_file_on_incore_answers _ _ _ _ Hc Hg).

Lemma return_dataservice_id_found_aux (title output_filename : string)
    (w : World X) (client : Client) (r : Response) :
  IncoreClient (ext w) = Ret client ->
  client_get client (search_url client) title (ext w) = Ret r ->
  (forall dataset id,
      resp_json r = Ret (VList [dataset]) ->
      getitem_key dataset "title" = Ret (VStr title) ->
      incore_filename_of dataset = Ret (VStr (output_filename +:+ ".csv")) ->
      getitem_key dataset "id" = Ret id ->
      return_dataservice_id title output_filename w
      = (Ret id, after_search w client title))
  /\ (resp_json r = Ret (VList []) ->
      return_dataservice_id title output_filename w
      = (Ret VNone, after_search w client title)).
Proof.
  intros Hc Hg. split.
  - intros dataset id Hj Ht Hf Hid.
    step_check Hc Hg. unfold bind, lift, ret. rewrite Hj. cbn.
    rewrite Hf, Ht. cbn. rewrite !String.eqb_refl. cbn. rewrite Hid. reflexivity.
  - intros Hj. step_check Hc Hg. unfold bind, lift, ret. rewrite Hj. reflexivity.
Qed.

(** C1. When the search of the catalog answers with exactly one dataset
    whose title is the requested one and whose first file is
    [output_filename + '.csv'], [return_dataservice_id] returns the id of
    that dataset; when it answers with no dataset at all,
    [return_dataservice_id] returns [None] and the turn of the caller goes
    on to generate the community. *)
Theorem return_dataservice_id_one_or_none (title output_filename : string)
    (w : World X) (client : Client) (r : Response) :
  IncoreClient (ext w) = Ret client ->
  client_get client (search_url client) title (ext w) = Ret r ->
  (forall dataset id,
      resp_json r = Ret (VList [dataset]) ->
      getitem_key dataset "title" = Ret (VStr title) ->
      incore_filename_of dataset = Ret (VStr (output_filename +:+ ".csv")) ->
      getitem_key dataset "id" = Ret id ->
      return_dataservice_id title output_filename w
      = (Ret id, after_search w client title))
  /\ (resp_json r = Ret (VList []) ->
      return_dataservice_id title output_filename w
      = (Ret VNone, after_search w client title)
      /\ forall self community c l,
          title = title_of c ->
          output_filename = output_filename_of self community ->
          community_turn self community c l w
          = generate_community self community c title output_filename
              {| l_dataset_id := Some VNone; l_outputfolders := l_outputfolders l |}
              (after_search w client title)).
Proof.
  intros Hc Hg.
  destruct (return_dataservice_id_found_aux title output_filename w client r Hc Hg)
    as [Hfound Hnone].
  split; [exact Hfound|].
  intros Hj. pose proof (Hnone Hj) as Hr.
  split; [exact Hr|].
    intros self community c l -> ->.
    unfold community_turn, bind at 1. rewrite Hr. reflexivity.
Qed.


(** C4. When the search answers with more than one dataset, an id that
    [return_dataservice_id] returns is the id of the entry whose number
    was typed on standard input: the method reads a line, takes it as a
    number and returns the id found under that number. With nothing to
    read it returns no id at all. *)
Theorem return_dataservice_id_several_matches (title output_filename : string)
    (w : World X) (client : Client) (r : Response) (j : pyval) (n : Z) :
  IncoreClient (ext w) = Ret client ->
  client_get client (search_url client) title (ext w) = Ret r ->
  resp_json r = Ret j ->
  py_len j = Ret n ->
  1 < n ->
  (forall v w',
      return_dataservice_id title output_filename w = (Ret v, w') ->
      exists line rest k item d,
        stdin w = (line :: rest) /\ stdin w' = rest /\
        int_of_str line = Ret k /\
        resp_getitem r k = Ret item /\
        getitem_key item "dataset" = Ret d /\
        getitem_key d "id" = Ret v)
  /\ (stdin w = [] ->
      exists e, fst (return_dataservice_id title output_filename w) = Raise e).
Proof.
  intros Hc Hg Hj Hn Hlt.
  assert (H1 : (n =? 1) = false) by lia.
  assert (H0 : (n =? 0) = false) by lia.
  split.
  - intros v w'. step_check Hc Hg. unfold bind, lift, ret, input.
    rewrite Hj, Hn, H1, H0. cbn [stdin after_search].
    destruct (resp_iter r) as [m|]; [|discriminate].
    destruct (print_candidates r 0 m); [|discriminate].
    destruct (stdin w) as [|line rest]; [discriminate|].
    destruct (int_of_str line) as [k|] eqn:Hk; [|discriminate].
    destruct (resp_getitem r k) as [item|] eqn:Hi; [|discriminate].
    destruct (getitem_key item "dataset") as [d|] eqn:Hd; [|discriminate].
    destruct (getitem_key d "id") as [v'|] eqn:Hv; [|discriminate].
    intros [= <- <-]. exists line, rest, k, item, d. cbn. auto 10.
  - intros Hin. step_check Hc Hg. unfold bind, lift, ret, input.
    rewrite Hj, Hn, H1, H0. cbn [stdin after_search]. rewrite Hin.
    destruct (resp_iter r) as [m|]; [|eexists; reflexivity].
    destruct (print_candidates r 0 m); eexists; reflexivity.
Qed.

(** C5, as the code has it. When the search of the catalog answers with
    exactly one dataset and that dataset has the title and the file name
    of a community, two publish checks in a row return the id of that
    dataset both times, and two turns in a row for that community return
    it both times; what is outside the process is as it was and the log
    has gained the four catalog operations only, so nothing was
    generated. *)
Theorem publish_check_twice (self : Self) (community : string) (c : Community)
    (l : Locals) (w : World X) (client : Client) (r : Response) (dataset id : pyval) :
  IncoreClient (ext w) = Ret client ->
  client_get client (search_url client) (title_of c) (ext w) = Ret r ->
  resp_json r = Ret (VList [dataset]) ->
  getitem_key dataset "title" = Ret (VStr (title_of c)) ->
  incore_filename_of dataset
  = Ret (VStr (output_filename_of self community +:+ ".csv")) ->
  getitem_key dataset "id" = Ret id ->
  is_not_None id = true ->
  let w2 := after_search (after_search w client (title_of c)) client (title_of c) in
  twice (return_dataservice_id (title_of c) (output_filename_of self community)) w
  = (Ret (id, id), w2)
  /\ twice (community_turn self community c l) w = (Ret (Returned id, Returned id), w2)
  /\ ext w2 = ext w
  /\ trace w2 = trace w ++ [EvIncoreClient; EvGet (search_url client) (title_of c);
                           EvIncoreClient; EvGet (search_url client) (title_of c)].
Proof.
  intros Hc Hg Hj Ht Hf Hid Hnn w2.
  pose proof (proj1 (return_dataservice_id_found_aux _ _ _ _ _ Hc Hg)
                _ _ Hj Ht Hf Hid) as H1.
  assert (H2 : return_dataservice_id (title_of c) (output_filename_of self community)
                 (after_search w client (title_of c)) = (Ret id, w2)).
  { apply (proj1 (return_dataservice_id_found_aux (title_of c) _
                    (after_search w client (title_of c)) client r Hc Hg)) with dataset;
      assumption. }
  repeat split.
  - unfold twice, bind. rewrite H1, H2. reflexivity.
  - unfold twice, community_turn, bind. rewrite H1, Hnn. cbn. rewrite H2, Hnn. reflexivity.
  - unfold w2, after_search. cbn. rewrite <- app_assoc. reflexivity.
Qed.

Lemma communities_loop_app (self : Self) (pre rest : list (string * Community))
    (l : Locals) (w : World X) :
  communities_loop self (pre ++ rest) l w
  = match communities_loop self pre l w with
    | (Ret (Continue l'), w') => communities_loop self rest l' w'
    | other => other
    end.
Proof.
  revert l w. induction pre as [|[community c] pre IH]; intros l w; [reflexivity|].
  cbn [app communities_loop]. unfold bind.
  destruct (community_turn self community c l w) as [[[v|l']|e] w']; try reflexivity.
  apply IH.
Qed.

(** C8. When the turns for the communities before one community went on
    to the end and the publish check for that community returns an id that
    is not [None], [generate_hui_v2_for_incore] returns that id in the
    world the check left: whatever comes later in the mapping is neither
    checked nor generated nor uploaded. *)
Theorem generate_returns_at_first_found (self : Self)
    (pre post : list (string * Community)) (community : string) (c : Community)
    (l1 : Locals) (w w1 w2 : World X) (id : pyval) :
  communities self = pre ++ (community, c) :: post ->
  communities_loop self pre {| l_dataset_id := None; l_outputfolders := None |} w
  = (Ret (Continue l1), w1) ->
  return_dataservice_id (title_of c) (output_filename_of self community) w1
  = (Ret id, w2) ->
  is_not_None id = true ->
  generate_hui_v2_for_incore self w = (Ret id, w2).
Proof.
  intros Hcs Hpre Hcheck Hnn.
  unfold generate_hui_v2_for_incore, bind at 1.
  rewrite Hcs, communities_loop_app, Hpre.
  cbn [communities_loop]. unfold community_turn, bind.
  rewrite Hcheck, Hnn. reflexivity.
Qed.

(** C10. With no community in the mapping the loop binds nothing, and
    the [return dataset_id] after it raises [UnboundLocalError]: no id is
    returned. *)
Theorem generate_empty_mapping (self : Self) (w : World X) :
  communities self = [] ->
  generate_hui_v2_for_incore self w = (Raise UnboundLocalError, w).
Proof.
  intros Hcs. unfold generate_hui_v2_for_incore. rewrite Hcs. reflexivity.
Qed.

(** ** The order of the rows *)

Lemma dict_set_fresh {A} (k : string) (v : A) (d : list (string * A)) :
  k ∉ map fst d -> dict_set k v d = d ++ [(k, v)].
Proof.
  induction d as [|[k' v'] d IH]; intros Hk; [reflexivity|].
  cbn in Hk. apply not_elem_of_cons in Hk. destruct Hk as [Hne Hk].
  cbn. destruct (String.eqb k k') eqn:E.
  - apply String.eqb_eq in E. contradiction.
  - now rewrite IH.
Qed.

Lemma dict_set_all_fresh {A} (kvs d : list (string * A)) :
  NoDup (map fst d ++ map fst kvs) ->
  fold_left (fun acc kv => dict_set (fst kv) (snd kv) acc) kvs d = d ++ kvs.
Proof.
  revert d. induction kvs as [|[k v] kvs IH]; intros d Hnd.
  - now rewrite app_nil_r.
  - cbn [fold_left fst snd]. rewrite dict_set_fresh.
    + rewrite IH.
      * now rewrite <- app_assoc.
      * rewrite map_app. cbn. rewrite <- app_assoc. exact Hnd.
    + cbn in Hnd. apply NoDup_app in Hnd. destruct Hnd as (_ & Hdis & _).
      intros H. apply (Hdis k H). now left.
Qed.

(** What the loop over the counties leaves in the dict: the frames it
    saved, set one after the other under their FIPS codes. *)
Lemma county_loop_dict (self : Self) (cs : list (string * County)) :
  forall county_list d ofs w county_list' d' ofs' w',
    county_loop self cs county_list d ofs w = (Ret (county_list', d', ofs'), w') ->
    exists evs,
      trace w' = trace w ++ evs /\
      map fst (saved_frames evs) = map (fun kc => FIPS_Code (snd kc)) cs /\
      csv_writes evs = [] /\
      d' = fold_left (fun acc kv => dict_set (fst kv) (snd kv) acc) (saved_frames evs) d.
Proof.
  induction cs as [|[key county] cs IH]; intros county_list d ofs w county_list' d' ofs' w'.
  - cbn. unfold ret. intros [= <- <- <- <-]. exists []. now rewrite app_nil_r.
  - cbn [county_loop]. unfold bind, call, lift.
    destruct (directory_design _ _ _) as [[o|e] x1]; [|discriminate]. cbn [ext trace stdin].
    destruct (run_hui_workflow _ x1) as [[base|e] x2]; [|discriminate]. cbn [ext trace stdin].
    destruct (base !! "primary") as [primary|]; [|discriminate].
    destruct (final_polish_hui _ _ x2) as [[hui|e] x3]; [|discriminate]. cbn [ext trace stdin].
    destruct (save_incore_version2 _ _ x3) as [[v2|e] x4]; [|discriminate]. cbn [ext trace stdin].
    intros H. apply IH in H. destruct H as (evs & Ht & Hk & Hc & Hd).
    cbn [trace] in Ht.
    eexists (_ :: _ :: _ :: _ :: evs). split; [|split; [|split]].
    + rewrite Ht. rewrite <- !app_assoc. reflexivity.
    + cbn [map snd]. rewrite <- Hk. reflexivity.
    + exact Hc.
    + exact Hd.
Qed.

Lemma map_fst_dict_set {A} (k : string) (v : A) (d : list (string * A)) :
  map fst (dict_set k v d) = add_key (map fst d) k.
Proof.
  unfold add_key. induction d as [|[k' v'] d IH]; [reflexivity|].
  cbn. destruct (String.eqb k k'); [reflexivity|].
  cbn. rewrite IH. destruct (existsb (String.eqb k) (map fst d)); reflexivity.
Qed.

Lemma assoc_dict_set {A} (k k' : string) (v : A) (d : list (string * A)) :
  assoc k' (dict_set k v d) = if String.eqb k' k then Some v else assoc k' d.
Proof.
  induction d as [|[k0 v0] d IH]; [reflexivity|].
  cbn. destruct (String.eqb k k0) eqn:E.
  - apply String.eqb_eq in E. subst k0. cbn. now destruct (String.eqb k' k).
  - cbn. rewrite IH. destruct (String.eqb k' k0) eqn:E0; [|reflexivity].
    apply String.eqb_eq in E0. subst k0.
    rewrite String.eqb_sym in E. now rewrite E.
Qed.

Lemma assoc_app {A} (k : string) (l1 l2 : list (string * A)) :
  assoc k (l1 ++ l2) = match assoc k l1 with Some v => Some v | None => assoc k l2 end.
Proof.
  induction l1 as [|[k' v'] l1 IH]; [reflexivity|].
  cbn. now destruct (String.eqb k k').
Qed.

Lemma fold_dict_set_keys {A} (kvs d : list (string * A)) :
  map fst (fold_left (fun acc kv => dict_set (fst kv) (snd kv) acc) kvs d)
  = fold_left add_key (map fst kvs) (map fst d).
Proof.
  revert d. induction kvs as [|[k v] kvs IH]; intros d; [reflexivity|].
  cbn [fold_left map fst snd]. now rewrite IH, map_fst_dict_set.
Qed.

Lemma fold_dict_set_assoc {A} (k : string) (kvs d : list (string * A)) :
  assoc k (fold_left (fun acc kv => dict_set (fst kv) (snd kv) acc) kvs d)
  = match assoc k (rev kvs) with Some v => Some v | None => assoc k d end.
Proof.
  revert d. induction kvs as [|[k0 v0] kvs IH]; intros d; [reflexivity|].
  cbn [fold_left fst snd rev]. rewrite IH, assoc_app, assoc_dict_set.
  destruct (assoc k (rev kvs)); [reflexivity|]. cbn.
  now destruct (String.eqb k k0).
Qed.

Lemma dict_set_In {A} (k k0 : string) (v v0 : A) (d : list (string * A)) :
  In (k, v) (dict_set k0 v0 d) -> (k, v) = (k0, v0) \/ In (k, v) d.
Proof.
  induction d as [|[k' v'] d IH]; cbn.
  - intros [H|[]]. now left.
  - destruct (String.eqb k0 k') eqn:E.
    + apply String.eqb_eq in E. subst k'. intros [H|H]; [now left|right; now right].
    + intros [H|H]; [right; now left|].
      destruct (IH H) as [H'|H']; [now left|right; now right].
Qed.

Lemma fold_dict_set_In {A} (k : string) (v : A) (kvs d : list (string * A)) :
  In (k, v) (fold_left (fun acc kv => dict_set (fst kv) (snd kv) acc) kvs d) ->
  In (k, v) kvs \/ In (k, v) d.
Proof.
  revert d. induction kvs as [|[k0 v0] kvs IH]; intros d; [now right|].
  cbn [fold_left fst snd]. intros H. apply IH in H. destruct H as [H|H]; [left; now right|].
  apply dict_set_In in H. destruct H as [H|H]; [left; now left|now right].
Qed.

Lemma add_key_In (k k0 : string) (keys : list string) :
  In k (add_key keys k0) <-> k = k0 \/ In k keys.
Proof.
  unfold add_key. destruct (existsb (String.eqb k0) keys) eqn:E.
  - split; [now right|]. intros [->|H]; [|exact H].
    apply existsb_exists in E. destruct E as (x & Hx & Hk).
    apply String.eqb_eq in Hk. now subst x.
  - rewrite in_app_iff. cbn. split.
    + intros [H|[H|[]]]; [now right|now left].
    + intros [H|H]; [right; left; now symmetry|now left].
Qed.

Lemma first_seen_In (k : string) (ks acc : list string) :
  In k (fold_left add_key ks acc) <-> In k ks \/ In k acc.
Proof.
  revert acc. induction ks as [|k0 ks IH]; intros acc; cbn [fold_left].
  - cbn. split; [now right|now intros [[]|H]].
  - rewrite IH, add_key_In. cbn. split.
    + intros [H|[H|H]]; [left; now right|left; left; now symmetry|now right].
    + intros [[H|H]|H]; [right; left; now symmetry|now left|right; now right].
Qed.

Lemma first_seen_NoDup (ks acc : list string) :
  NoDup acc -> NoDup (fold_left add_key ks acc).
Proof.
  revert acc. induction ks as [|k0 ks IH]; intros acc Hnd; [exact Hnd|].
  cbn [fold_left]. apply IH. unfold add_key.
  destruct (existsb (String.eqb k0) acc) eqn:E; [exact Hnd|].
  apply NoDup_app. split; [exact Hnd|]. split; [|apply NoDup_singleton].
  intros x Hx Hk. apply list_elem_of_singleton in Hk. subst x.
  apply list_elem_of_In in Hx.
  assert (existsb (String.eqb k0) acc = true); [|congruence].
  apply existsb_exists. exists k0. split; [exact Hx|apply String.eqb_refl].
Qed.

(** C3. The combined table of a community is one block of rows for each
    county, that is for each FIPS code of the county list: the blocks
    stand one after the other, in the order in which the county list
    first has their codes, every code of the list has its block, and a
    block is a frame that was generated for its code in this run, its
    rows in the order they were generated in. The order of the blocks is
    a function of the county list alone. With pairwise distinct codes
    the blocks are the generated frames, one for each entry of the list,
    in the order of the list. *)
Theorem combine_counties_blocks_first_seen (self : Self) (c : Community) (l : Locals)
    (w w' : World X) (county_list : string) (df df_fixed : DataFrame)
    (ofs : option (gmap string string)) :
  combine_counties self c l w = (Ret (county_list, df, df_fixed, ofs), w') ->
  exists (evs : list Event) (blocks : list (string * DataFrame)),
    trace w' = trace w ++ evs /\
    map fst (saved_frames evs) = fips_codes c /\
    df = concat (map snd blocks) /\
    map fst blocks = first_seen (fips_codes c) /\
    NoDup (map fst blocks) /\
    (forall code, In code (fips_codes c) -> In code (map fst blocks)) /\
    (forall (code : string) (frame : DataFrame),
        In (code, frame) blocks -> In (code, frame) (saved_frames evs)) /\
    (NoDup (fips_codes c) -> blocks = saved_frames evs).
Proof.
  unfold combine_counties, bind at 1.
  destruct (county_loop self (counties c) "" [] (l_outputfolders l) w)
    as [[[[cl d] o]|e] w1] eqn:Hloop; [|discriminate].
  apply county_loop_dict in Hloop. destruct Hloop as (evs & Ht & Hk & _ & Hd).
  unfold bind, lift, ret.
  destruct (pd_concat (dict_values d)) as [raw|] eqn:Hcat; [|discriminate].
  destruct (applymap remove_dot0 raw); [|discriminate].
  intros [= <- <- <- <- <-]. exists evs, d.
  split; [exact Ht|]. split; [exact Hk|].
  split; [|split; [|split; [|split; [|split]]]].
  - unfold pd_concat, dict_values in Hcat.
    destruct (map snd d); [discriminate|]. now injection Hcat.
  - subst d. rewrite fold_dict_set_keys. unfold first_seen, fips_codes. now rewrite Hk.
  - subst d. rewrite fold_dict_set_keys. apply first_seen_NoDup. constructor.
  - intros code Hin. subst d. rewrite fold_dict_set_keys. apply first_seen_In.
    left. now rewrite Hk.
  - intros code frame Hin. subst d. apply fold_dict_set_In in Hin.
    destruct Hin as [Hin|[]]. exact Hin.
  - intros Hnd. subst d. rewrite dict_set_all_fresh; [reflexivity|].
    cbn. unfold fips_codes in Hnd. now rewrite Hk.
Qed.

(** ** The two files of a community *)

Lemma logs_ret {A} (Q : Event -> Prop) (a : A) : logs Q (ret a).
Proof.
  intros w a' w' [= <- <-]. exists []. now rewrite app_nil_r.
Qed.

Lemma logs_lift {A} (Q : Event -> Prop) (o : outcome A) : logs Q (lift o).
Proof.
  intros w a w' [= -> <-]. exists []. now rewrite app_nil_r.
Qed.

Lemma logs_bind {A B} (Q : Event -> Prop) (m : M X A) (k : A -> M X B) :
  logs Q m -> (forall a, logs Q (k a)) -> logs Q (bind m k).
Proof.
  intros Hm Hk w b w'. unfold bind.
  destruct (m w) as [[a|e] w1] eqn:E; [|discriminate].
  intros H. apply Hm in E. apply Hk in H.
  destruct E as (evs1 & E1 & H1). destruct H as (evs2 & E2 & H2).
  exists (evs1 ++ evs2). split; [now rewrite E2, E1, app_assoc|]. now apply Forall_app.
Qed.

Lemma logs_call {A} (Q : Event -> Prop) (ev : A -> Event) (f : X -> outcome A * X) :
  (forall a, Q (ev a)) -> logs Q (call ev f).
Proof.
  intros HQ w a w'. unfold call.
  destruct (f (ext w)) as [[a'|e] x]; [|discriminate].
  intros [= <- <-]. exists [ev a']. split; [reflexivity|]. now constructor.
Qed.

Lemma logs_query {A} (Q : Event -> Prop) (ev : Event) (f : X -> outcome A) :
  Q ev -> logs Q (query ev f).
Proof.
  intros HQ w a w'. unfold query.
  destruct (f (ext w)) as [a'|e]; [|discriminate].
  intros [= <- <-]. exists [ev]. split; [reflexivity|]. now constructor.
Qed.

Lemma csv_writes_app (evs1 evs2 : list Event) :
  csv_writes (evs1 ++ evs2) = csv_writes evs1 ++ csv_writes evs2.
Proof. unfold csv_writes. apply flat_map_app. Qed.

Lemma not_to_csv_all (evs : list Event) : Forall not_to_csv evs -> csv_writes evs = [].
Proof.
  induction 1 as [|ev evs Hev _ IH]; [reflexivity|].
  change (ev :: evs) with ([ev] ++ evs).
  rewrite csv_writes_app, IH, app_nil_r. exact Hev.
Qed.

Lemma figures_loop_logs (self : Self) (community : string) (df : DataFrame)
    (ofs : gmap string string) (by_vars figures_list : list string) :
  logs not_to_csv (figures_loop self community df ofs by_vars figures_list).
Proof.
  revert figures_list. induction by_vars as [|by_var rest IH]; intros figures_list.
  - apply logs_ret.
  - cbn [figures_loop]. apply logs_bind; [|intros name; apply IH].
    apply logs_call. reflexivity.
Qed.

Lemma explore_and_upload_logs (self : Self) (community title output_filename : string)
    (county_list : string) (df df_fixed : DataFrame) (csv_filepath : string)
    (ofs : gmap string string) :
  logs not_to_csv
    (explore_and_upload self community title output_filename county_list df df_fixed
       csv_filepath ofs).
Proof.
  unfold explore_and_upload, loginto_incore_dataservice.
  repeat lazymatch goal with
    | |- logs _ (bind _ _) => apply logs_bind; [|intros ?]
    | |- logs _ (ret _) => apply logs_ret
    | |- logs _ (lift _) => apply logs_lift
    | |- logs _ (figures_loop _ _ _ _ _ _) => apply figures_loop_logs
    | |- logs _ (call _ _) => apply logs_call; intros; reflexivity
    | |- logs _ (query _ _) => apply logs_query; reflexivity
    end.
Qed.

Lemma combine_counties_fixed (self : Self) (c : Community) (l : Locals) (w w1 : World X)
    (county_list : string) (raw df : DataFrame) (ofs : option (gmap string string)) :
  combine_counties self c l w = (Ret (county_list, raw, df, ofs), w1) ->
  applymap remove_dot0 raw = Ret df /\
  exists evs, trace w1 = trace w ++ evs /\ csv_writes evs = [].
Proof.
  unfold combine_counties, bind at 1.
  destruct (county_loop self (counties c) "" [] (l_outputfolders l) w)
    as [[[[cl d] o]|e] w0] eqn:Hloop; [|discriminate].
  apply county_loop_dict in Hloop. destruct Hloop as (evs & Ht & _ & Hc & _).
  unfold bind, lift, ret.
  destruct (pd_concat (dict_values d)) as [raw'|]; [|discriminate].
  destruct (applymap remove_dot0 raw') as [df'|] eqn:Hfix; [|discriminate].
  intros [= <- <- <- <- <-]. split; [exact Hfix|]. now exists evs.
Qed.

Lemma save_results_writes (df : DataFrame) (ofs : option (gmap string string))
    (output_filename csv_filepath : string) (o : gmap string string) (w w' : World X) :
  save_results df ofs output_filename w = (Ret (csv_filepath, o), w') ->
  exists top,
    ofs = Some o /\ o !! "top" = Some top /\
    trace w' = trace w ++ [EvToCsv df (savefile_path top output_filename);
                           EvToCsv df (common_path top output_filename)].
Proof.
  unfold save_results, bind, lift, ret, call, local_var, dict_get.
  destruct ofs as [o'|]; [|discriminate].
  destruct (o' !! "top") as [top|] eqn:Htop; [|discriminate]. cbn [ext trace stdin].
  destruct (to_csv df _ (ext w)) as [[[]|e] x1]; [|discriminate]. cbn [ext trace stdin].
  destruct (to_csv df _ x1) as [[[]|e] x2]; [|discriminate]. cbn [ext trace stdin].
  intros [= <- <- <-]. exists top. split; [reflexivity|]. split; [exact Htop|].
  cbn [trace]. rewrite <- app_assoc. reflexivity.
Qed.

(** C6. A run for a community that completes has written the table with
    the [.0] removed two times and no other table: once under the folder
    of the run and once under the common directory, the same frame both
    times. When either of the two writes raises, the run raises that
    exception and does not complete. *)
Theorem community_run_needs_both_writes (self : Self) (community : string)
    (c : Community) (title output_filename : string) (l : Locals) (w : World X) :
  (forall t w',
      generate_community self community c title output_filename l w = (Ret t, w') ->
      exists evs county_list raw df ofs w1 top,
        combine_counties self c l w = (Ret (county_list, raw, df, ofs), w1) /\
        applymap remove_dot0 raw = Ret df /\
        trace w' = trace w ++ evs /\
        csv_writes evs = [(df, savefile_path top output_filename);
                          (df, common_path top output_filename)])
  /\ (forall county_list raw df ofs w1 top e,
        combine_counties self c l w = (Ret (county_list, raw, df, Some ofs), w1) ->
        ofs !! "top" = Some top ->
        (fst (to_csv df (savefile_path top output_filename) (ext w1)) = Raise e
         \/ exists x1,
             to_csv df (savefile_path top output_filename) (ext w1) = (Ret tt, x1) /\
             fst (to_csv df (common_path top output_filename) x1) = Raise e) ->
        fst (generate_community self community c title output_filename l w) = Raise e).
Proof.
  split.
  - intros t w'. unfold generate_community, bind at 1.
    destruct (combine_counties self c l w) as [[[[[cl raw] df] ofs]|e] w1] eqn:Hcomb;
      [|discriminate].
    unfold bind at 1.
    destruct (save_results df ofs output_filename w1) as [[[path o]|e] w2] eqn:Hsave;
      [|discriminate].
    unfold bind at 1.
    destruct (explore_and_upload _ _ _ _ _ _ _ _ _ w2) as [[id|e] w3] eqn:Hup;
      [|discriminate].
    unfold ret. intros [= <- <-].
    destruct (combine_counties_fixed _ _ _ _ _ _ _ _ _ Hcomb) as (Hfix & evs1 & Ht1 & Hc1).
    apply save_results_writes in Hsave. destruct Hsave as (top & _ & _ & Ht2).
    apply explore_and_upload_logs in Hup. destruct Hup as (evs3 & Ht3 & Hc3).
    apply not_to_csv_all in Hc3.
    exists (evs1 ++ [EvToCsv df (savefile_path top output_filename);
                     EvToCsv df (common_path top output_filename)] ++ evs3),
      cl, raw, df, ofs, w1, top.
    split; [reflexivity|]. split; [exact Hfix|]. split.
    + rewrite Ht3, Ht2, Ht1. rewrite <- !app_assoc. reflexivity.
    + rewrite !csv_writes_app, Hc1, Hc3. reflexivity.
  - intros cl raw df ofs w1 top e Hcomb Htop Hfail.
    unfold generate_community, bind at 1. rewrite Hcomb.
    unfold bind at 1.
    unfold save_results, bind, lift, ret, call, local_var, dict_get.
    rewrite Htop. cbn [ext trace stdin].
    fold (savefile_path top output_filename). fold (common_path top output_filename).
    destruct Hfail as [H1 | (x1 & H1 & H2)].
    + destruct (to_csv df (savefile_path top output_filename) (ext w1)) as [[[]|e'] x].
      * discriminate.
      * cbn in H1. injection H1 as ->. reflexivity.
    + rewrite H1. cbn [ext trace stdin].
      destruct (to_csv df (common_path top output_filename) x1) as [[[]|e'] x].
      * discriminate.
      * cbn in H2. injection H2 as ->. reflexivity.
Qed.

(** ** More on the publish check *)

(** X3. A sole match that is not shaped like a dataset makes the check
    raise instead of returning [None], whatever its title: [KeyError]
    when it has no [fileDescriptors], [IndexError] when that list is
    empty, [TypeError] when the body is an object with one key. *)
Theorem return_dataservice_id_malformed_match (title output_filename : string)
    (w : World X) (client : Client) (r : Response) :
  IncoreClient (ext w) = Ret client ->
  client_get client (search_url client) title (ext w) = Ret r ->
  (forall kvs,
      resp_json r = Ret (VList [VDict kvs]) ->
      assoc "fileDescriptors" kvs = None ->
      return_dataservice_id title output_filename w
      = (Raise KeyError, after_search w client title))
  /\ (forall kvs,
        resp_json r = Ret (VList [VDict kvs]) ->
        assoc "fileDescriptors" kvs = Some (VList []) ->
        return_dataservice_id title output_filename w
        = (Raise IndexError, after_search w client title))
  /\ (forall k v,
        resp_json r = Ret (VDict [(k, v)]) ->
        return_dataservice_id title output_filename w
        = (Raise TypeError, after_search w client title)).
Proof.
  intros Hc Hg. split; [|split].
  - intros kvs Hj Hfd. step_check Hc Hg. unfold bind, lift, ret. rewrite Hj. cbn.
    unfold incore_filename_of, getitem_key. rewrite Hfd. reflexivity.
  - intros kvs Hj Hfd. step_check Hc Hg. unfold bind, lift, ret. rewrite Hj. cbn.
    unfold incore_filename_of, getitem_key. rewrite Hfd. reflexivity.
  - intros k v Hj. step_check Hc Hg. unfold bind, lift, ret. rewrite Hj. reflexivity.
Qed.

(** X4. With several matches the candidates are listed before the
    prompt: when subscripting the answer raises at the first candidate,
    the check raises that exception and no line is read. *)
Theorem return_dataservice_id_listing_fails_first (title output_filename : string)
    (w : World X) (client : Client) (r : Response) (j : pyval) (n : Z) (k : nat)
    (e : exn) :
  IncoreClient (ext w) = Ret client ->
  client_get client (search_url client) title (ext w) = Ret r ->
  resp_json r = Ret j ->
  py_len j = Ret n ->
  1 < n ->
  resp_iter r = Ret (S k) ->
  resp_getitem r 0 = Raise e ->
  return_dataservice_id title output_filename w
  = (Raise e, after_search w client title).
Proof.
  intros Hc Hg Hj Hn Hlt Hit Hget.
  assert (H1 : (n =? 1) = false) by lia.
  assert (H0 : (n =? 0) = false) by lia.
  step_check Hc Hg. unfold bind, lift, ret.
  rewrite Hj, Hn, H1, H0, Hit. cbn [print_candidates]. rewrite Hget. reflexivity.
Qed.

(** ** More on the generation of a community *)

(** X6. A community with no county that is not in the catalog makes its
    turn raise [ValueError] right after the check: there is no frame to
    concatenate, and nothing is generated or written. *)
Theorem community_turn_no_county (self : Self) (community : string) (c : Community)
    (l : Locals) (w w1 : World X) :
  counties c = [] ->
  return_dataservice_id (title_of c) (output_filename_of self community) w
  = (Ret VNone, w1) ->
  community_turn self community c l w = (Raise ValueError, w1).
Proof.
  intros Hcs Hcheck. unfold community_turn, bind at 1. rewrite Hcheck. cbn [is_not_None].
  unfold generate_community, combine_counties, bind at 1. rewrite Hcs. reflexivity.
Qed.

(** X7. Where the run stops when a write fails. Without a [top] folder it
    raises [KeyError] before any write. When the write under the folder
    of the run raises, no table has been written. When the write to the
    common directory raises, the table under the folder of the run has
    been written and stays. *)
Theorem generate_community_write_failures (self : Self) (community : string)
    (c : Community) (title output_filename : string) (l : Locals) (w w1 : World X)
    (county_list : string) (raw df : DataFrame) (ofs : gmap string string) :
  combine_counties self c l w = (Ret (county_list, raw, df, Some ofs), w1) ->
  (ofs !! "top" = None ->
   generate_community self community c title output_filename l w = (Raise KeyError, w1))
  /\ (forall top e x,
        ofs !! "top" = Some top ->
        to_csv df (savefile_path top output_filename) (ext w1) = (Raise e, x) ->
        generate_community self community c title output_filename l w
        = (Raise e, {| stdin := stdin w1; ext := x; trace := trace w1 |}))
  /\ (forall top e x1 x2,
        ofs !! "top" = Some top ->
        to_csv df (savefile_path top output_filename) (ext w1) = (Ret tt, x1) ->
        to_csv df (common_path top output_filename) x1 = (Raise e, x2) ->
        generate_community self community c title output_filename l w
        = (Raise e, {| stdin := stdin w1; ext := x2;
                       trace := trace w1
                                ++ [EvToCsv df (savefile_path top output_filename)] |})).
Proof.
  intros Hcomb. split; [|split].
  - intros Htop. unfold generate_community, bind at 1. rewrite Hcomb.
    unfold bind at 1. unfold save_results, bind, lift, local_var, dict_get.
    rewrite Htop. reflexivity.
  - intros top e x Htop H1. unfold generate_community, bind at 1. rewrite Hcomb.
    unfold bind at 1. unfold save_results, bind, lift, call, local_var, dict_get.
    rewrite Htop. cbn [ext trace stdin].
    fold (savefile_path top output_filename). rewrite H1. reflexivity.
  - intros top e x1 x2 Htop H1 H2. unfold generate_community, bind at 1. rewrite Hcomb.
    unfold bind at 1. unfold save_results, bind, lift, call, local_var, dict_get.
    rewrite Htop. cbn [ext trace stdin].
    fold (savefile_path top output_filename). rewrite H1. cbn [ext trace stdin].
    fold (common_path top output_filename). rewrite H2. reflexivity.
Qed.

(** ** One block per FIPS code *)

(** X5. What the combined table is for any county list: one block for
    each FIPS code, the codes in the order in which the list first has
    them, and the block of a code is the frame saved last for it. *)
Theorem combine_counties_last_frame_per_code (self : Self) (c : Community) (l : Locals)
    (w w' : World X) (county_list : string) (df df_fixed : DataFrame)
    (ofs : option (gmap string string)) :
  combine_counties self c l w = (Ret (county_list, df, df_fixed, ofs), w') ->
  exists evs d,
    trace w' = trace w ++ evs /\
    map fst (saved_frames evs) = fips_codes c /\
    map fst d = first_seen (fips_codes c) /\
    (forall k, assoc k d = assoc k (rev (saved_frames evs))) /\
    df = concat (map snd d).
Proof.
  unfold combine_counties, bind at 1.
  destruct (county_loop self (counties c) "" [] (l_outputfolders l) w)
    as [[[[cl d] o]|e] w1] eqn:Hloop; [|discriminate].
  apply county_loop_dict in Hloop. destruct Hloop as (evs & Ht & Hk & _ & Hd).
  unfold bind, lift, ret.
  destruct (pd_concat (dict_values d)) as [raw|] eqn:Hcat; [|discriminate].
  destruct (applymap remove_dot0 raw); [|discriminate].
  intros [= <- <- <- <- <-]. exists evs, d. split; [exact Ht|]. split; [exact Hk|].
  split; [|split].
  - subst d. rewrite fold_dict_set_keys. unfold first_seen, fips_codes.
    now rewrite Hk.
  - intros k. subst d. rewrite fold_dict_set_assoc. now destruct (assoc k _).
  - unfold pd_concat, dict_values in Hcat.
    destruct (map snd d); [discriminate|]. now injection Hcat.
Qed.

(** ** What the method returns *)

Ltac split_innermost :=
  repeat match goal with
         | |- context [match ?x with _ => _ end] =>
             lazymatch x with
             | context [match _ with _ => _ end] => fail
             | _ => destruct x; cbn
             end
         end.

Lemma explore_and_upload_returns_str (self : Self)
    (community title output_filename county_list : string) (df df_fixed : DataFrame)
    (csv_filepath : string) (ofs : gmap string string) (w w' : World X) (v : pyval) :
  explore_and_upload self community title output_filename county_list df df_fixed
    csv_filepath ofs w = (Ret v, w') ->
  exists s, v = VStr s.
Proof.
  unfold explore_and_upload, loginto_incore_dataservice, bind, call, query, lift, ret.
  split_innermost; intros [= <- <-]; eauto.
Qed.

Lemma community_turn_result (self : Self) (community : string) (c : Community)
    (l : Locals) (w w' : World X) (t : Turn) :
  community_turn self community c l w = (Ret t, w') ->
  match t with
  | Returned v => is_not_None v = true
  | Continue l' => exists s, l_dataset_id l' = Some (VStr s)
  end.
Proof.
  unfold community_turn, bind at 1.
  destruct (return_dataservice_id _ _ w) as [[id|e] w1]; [|discriminate].
  destruct (is_not_None id) eqn:Hid.
  - unfold ret. now intros [= <- <-].
  - unfold generate_community, bind.
    destruct (combine_counties _ _ _ w1) as [[[[[cl raw] df] ofs]|e] w2]; [|discriminate].
    destruct (save_results _ _ _ w2) as [[[path o]|e] w3]; [|discriminate].
    destruct (explore_and_upload _ _ _ _ _ _ _ _ _ w3) as [[v|e] w4] eqn:Hup;
      [|discriminate].
    apply explore_and_upload_returns_str in Hup. destruct Hup as [s ->].
    unfold ret. intros [= <- <-]. now exists s.
Qed.

Lemma communities_loop_result (self : Self) (cs : list (string * Community)) :
  forall l w w' t,
    communities_loop self cs l w = (Ret t, w') ->
    match t with
    | Returned v => is_not_None v = true
    | Continue l' => l' = l \/ exists s, l_dataset_id l' = Some (VStr s)
    end.
Proof.
  induction cs as [|[community c] cs IH]; intros l w w' t.
  - cbn. unfold ret. intros [= <- <-]. now left.
  - cbn [communities_loop]. unfold bind.
    destruct (community_turn self community c l w) as [[[v|l1]|e] w1] eqn:Hturn;
      [| |discriminate].
    + apply community_turn_result in Hturn. unfold ret. now intros [= <- <-].
    + apply community_turn_result in Hturn. destruct Hturn as [s Hs].
      intros H. apply IH in H. destruct t as [v|l2]; [exact H|].
      right. destruct H as [->|H]; [now exists s|exact H].
Qed.

(** X8. [generate_hui_v2_for_incore] never returns [None]: what it
    returns is an id that a publish check found, or the id, a string, of
    the dataset it created for the last community. *)
Theorem generate_never_returns_None (self : Self) (w w' : World X) (v : pyval) :
  generate_hui_v2_for_incore self w = (Ret v, w') ->
  is_not_None v = true.
Proof.
  unfold generate_hui_v2_for_incore, bind.
  destruct (communities_loop self (communities self) _ w) as [[[v0|l]|e] w1] eqn:Hloop;
    [| |discriminate].
  - apply communities_loop_result in Hloop. unfold ret. now intros [= <- <-].
  - apply communities_loop_result in Hloop. destruct Hloop as [->|[s Hs]].
    + discriminate.
    + unfold lift, local_var. rewrite Hs. now intros [= <- <-].
Qed.

(** ** The catalog is changed last *)

Lemma logs_always_ret {A} (Q : Event -> Prop) (a : A) : logs_always Q (ret a).
Proof. intros w o w' [= <- <-]. exists []. now rewrite app_nil_r. Qed.

Lemma logs_always_lift {A} (Q : Event -> Prop) (o : outcome A) : logs_always Q (lift o).
Proof. intros w o' w' [= <- <-]. exists []. now rewrite app_nil_r. Qed.

Lemma logs_always_bind {A B} (Q : Event -> Prop) (m : M X A) (k : A -> M X B) :
  logs_always Q m -> (forall a, logs_always Q (k a)) -> logs_always Q (bind m k).
Proof.
  intros Hm Hk w o w'. unfold bind.
  destruct (m w) as [[a|e] w1] eqn:E; apply Hm in E; destruct E as (evs1 & E1 & H1).
  - intros H. apply Hk in H. destruct H as (evs2 & E2 & H2).
    exists (evs1 ++ evs2). split; [now rewrite E2, E1, app_assoc|]. now apply Forall_app.
  - intros [= <- <-]. now exists evs1.
Qed.

Lemma logs_always_call {A} (Q : Event -> Prop) (ev : A -> Event)
    (f : X -> outcome A * X) :
  (forall a, Q (ev a)) -> logs_always Q (call ev f).
Proof.
  intros HQ w o w'. unfold call.
  destruct (f (ext w)) as [[a|e] x]; intros [= <- <-].
  - exists [ev a]. split; [reflexivity|]. now constructor.
  - exists []. cbn. now rewrite app_nil_r.
Qed.

Lemma logs_always_query {A} (Q : Event -> Prop) (ev : Event) (f : X -> outcome A) :
  Q ev -> logs_always Q (query ev f).
Proof.
  intros HQ w o w'. unfold query.
  destruct (f (ext w)) as [a|e]; intros [= <- <-].
  - exists [ev]. split; [reflexivity|]. now constructor.
  - exists []. now rewrite app_nil_r.
Qed.

Ltac logs_always_steps :=
  repeat lazymatch goal with
    | |- logs_always _ (bind _ _) => apply logs_always_bind; [|intros ?]
    | |- logs_always _ (ret _) => apply logs_always_ret
    | |- logs_always _ (lift _) => apply logs_always_lift
    | |- logs_always _ (call _ _) => apply logs_always_call; intros; exact I
    | |- logs_always _ (query _ _) => apply logs_always_query; exact I
    | |- logs_always _ (match ?x with _ => _ end) => destruct x
    end.

Lemma county_loop_before_upload (self : Self) (cs : list (string * County)) :
  forall county_list d ofs,
    logs_always before_upload (county_loop self cs county_list d ofs).
Proof.
  induction cs as [|[key county] cs IH]; intros county_list d ofs; cbn [county_loop].
  - apply logs_always_ret.
  - logs_always_steps. apply IH.
Qed.

Lemma combine_counties_before_upload (self : Self) (c : Community) (l : Locals) :
  logs_always before_upload (combine_counties self c l).
Proof.
  unfold combine_counties. apply logs_always_bind; [apply county_loop_before_upload|].
  intros [[cl d] o]. logs_always_steps.
Qed.

Lemma figures_loop_before_upload (self : Self) (community : string) (df : DataFrame)
    (ofs : gmap string string) (by_vars : list string) :
  forall figures_list,
    logs_always before_upload (figures_loop self community df ofs by_vars figures_list).
Proof.
  induction by_vars as [|by_var rest IH]; intros figures_list; cbn [figures_loop].
  - apply logs_always_ret.
  - logs_always_steps. apply IH.
Qed.

Lemma before_upload_all (evs : list Event) :
  Forall before_upload evs ->
  csv_writes evs = [] /\
  (forall md, ~ In (EvCreateDataset md) evs) /\
  (forall id files, ~ In (EvAddFiles id files) evs).
Proof.
  induction 1 as [|ev evs Hev _ (IH1 & IH2 & IH3)].
  - repeat split; intros; intros [].
  - change (ev :: evs) with ([ev] ++ evs). rewrite csv_writes_app, IH1, app_nil_r.
    split; [now destruct ev|].
    split.
    + intros md [Heq|Hin]; [subst ev; exact Hev|now apply (IH2 md)].
    + intros id files [Heq|Hin]; [subst ev; exact Hev|now apply (IH3 id files)].
Qed.

Lemma save_results_always (df : DataFrame) (ofs : option (gmap string string))
    (output_filename : string) (w w' : World X)
    (o : outcome (string * gmap string string)) :
  save_results df ofs output_filename w = (o, w') ->
  exists evs,
    trace w' = trace w ++ evs /\
    (forall md, ~ In (EvCreateDataset md) evs) /\
    (forall id files, ~ In (EvAddFiles id files) evs) /\
    (forall a, o = Ret a -> length (csv_writes evs) = 2%nat).
Proof.
  unfold save_results, bind, lift, ret, call, local_var, dict_get.
  split_innermost; intros [= <- <-]; cbn [trace]; rewrite <- ?app_assoc;
    (eexists; split; [first [reflexivity | symmetry; apply app_nil_r]|]);
    (split; [intros md Hin; cbn in Hin; intuition discriminate|]);
    (split; [intros id files Hin; cbn in Hin; intuition discriminate|]);
    intros res Hres; first [discriminate Hres | reflexivity].
Qed.

Lemma explore_and_upload_always (self : Self)
    (community title output_filename county_list : string) (df df_fixed : DataFrame)
    (csv_filepath : string) (ofs : gmap string string) (w w' : World X)
    (o : outcome pyval) :
  explore_and_upload self community title output_filename county_list df df_fixed
    csv_filepath ofs w = (o, w') ->
  exists evs,
    trace w' = trace w ++ evs /\
    csv_writes evs = [] /\
    (forall id files, In (EvAddFiles id files) evs -> exists md, In (EvCreateDataset md) evs).
Proof.
  unfold explore_and_upload, bind at 1.
  destruct (figures_loop self community df ofs _ [] w) as [[figs|e] w1] eqn:Hf;
    apply figures_loop_before_upload in Hf; destruct Hf as (evs1 & Ht1 & H1);
    apply before_upload_all in H1; destruct H1 as (Hc1 & _ & Ha1).
  2:{ intros [= <- <-]. exists evs1. repeat split; [exact Ht1|exact Hc1|].
      intros id files Hin. now apply Ha1 in Hin. }
  rewrite <- (app_nil_r evs1) in Ht1.
  unfold loginto_incore_dataservice, bind, call, query, lift, ret.
  split_innermost; intros [= <- <-]; cbn [trace]; rewrite Ht1, <- ?app_assoc;
    (eexists; split; [reflexivity|]);
    (split; [rewrite csv_writes_app, Hc1; reflexivity|]);
    intros id files Hin; apply in_app_or in Hin; destruct Hin as [Hin|Hin];
    try (now apply Ha1 in Hin);
    cbn in Hin; try (intuition discriminate);
    eexists; apply in_or_app; right; cbn; eauto 10.
Qed.

(** X9. The catalog is changed last. However a run for a community ends,
    its log has a dataset created only when both tables were written
    before, and has files attached only when the dataset was created. *)
Theorem generate_community_uploads_last (self : Self) (community : string)
    (c : Community) (title output_filename : string) (l : Locals) (w w' : World X)
    (o : outcome Turn) :
  generate_community self community c title output_filename l w = (o, w') ->
  exists evs,
    trace w' = trace w ++ evs /\
    (forall md, In (EvCreateDataset md) evs -> length (csv_writes evs) = 2%nat) /\
    (forall id files,
        In (EvAddFiles id files) evs -> exists md, In (EvCreateDataset md) evs).
Proof.
  unfold generate_community, bind at 1.
  destruct (combine_counties self c l w) as [[[[[cl raw] df] ofs]|e] w1] eqn:Hcomb;
    apply combine_counties_before_upload in Hcomb;
    destruct Hcomb as (evs1 & Ht1 & H1);
    apply before_upload_all in H1; destruct H1 as (Hc1 & Hd1 & Ha1).
  2:{ intros [= <- <-]. exists evs1. split; [exact Ht1|].
      split; [intros md Hin; now apply Hd1 in Hin|].
      intros id files Hin. now apply Ha1 in Hin. }
  unfold bind at 1.
  destruct (save_results df ofs output_filename w1) as [[[path ofs']|e] w2] eqn:Hsave;
    apply save_results_always in Hsave;
    destruct Hsave as (evs2 & Ht2 & Hd2 & Ha2 & Hc2).
  2:{ intros [= <- <-]. exists (evs1 ++ evs2).
      split; [now rewrite Ht2, Ht1, app_assoc|].
      split.
      - intros md Hin. apply in_app_or in Hin. destruct Hin as [Hin|Hin];
          [now apply Hd1 in Hin|now apply Hd2 in Hin].
      - intros id files Hin. apply in_app_or in Hin. destruct Hin as [Hin|Hin];
          [now apply Ha1 in Hin|now apply Ha2 in Hin]. }
  specialize (Hc2 _ eq_refl).
  unfold bind at 1.
  destruct (explore_and_upload _ _ _ _ _ _ _ _ _ w2) as [o3 w3] eqn:Hup.
  apply explore_and_upload_always in Hup. destruct Hup as (evs3 & Ht3 & Hc3 & Ha3).
  intros H.
  assert (Hw : w' = w3) by (destruct o3; unfold ret in H; now injection H).
  subst w'. exists (evs1 ++ evs2 ++ evs3).
  split; [now rewrite Ht3, Ht2, Ht1, <- !app_assoc|].
  split.
  - intros md _. now rewrite !csv_writes_app, Hc1, Hc3, app_nil_r.
  - intros id files Hin. apply in_app_or in Hin. destruct Hin as [Hin|Hin];
      [now apply Ha1 in Hin|].
    apply in_app_or in Hin. destruct Hin as [Hin|Hin]; [now apply Ha2 in Hin|].
    destruct (Ha3 id files Hin) as [md Hmd]. exists md.
    apply in_or_app. right. apply in_or_app. now right.
Qed.

(** ** What is uploaded is what the check looks for *)

Lemma explore_and_upload_completed (self : Self)
    (community title output_filename county_list : string) (df df_fixed : DataFrame)
    (csv_filepath : string) (ofs : gmap string string) (w w' : World X) (v : pyval) :
  explore_and_upload self community title output_filename county_list df df_fixed
    csv_filepath ofs w = (Ret v, w') ->
  exists evs,
    trace w' = trace w ++ evs /\
    In (EvCreateDataset {| md_title := title;
                           md_description := hui_description county_list;
                           md_dataType := "incore:housingUnitInventory";
                           md_format := "table" |}) evs /\
    In (EvAddFiles v [csv_filepath]) evs.
Proof.
  unfold explore_and_upload, bind at 1.
  destruct (figures_loop self community df ofs _ [] w) as [[figs|e] w1] eqn:Hf;
    [|discriminate].
  apply figures_loop_before_upload in Hf. destruct Hf as (evs1 & Ht1 & _).
  unfold loginto_incore_dataservice, bind, call, query, lift, ret.
  split_innermost; intros [= <- <-]; cbn [trace]; rewrite Ht1, <- ?app_assoc;
    (eexists; split; [reflexivity|]);
    split; apply in_or_app; right; cbn; auto 10.
Qed.

(** X13. A run for a community that completes has created a dataset
    whose title is the title the publish check searches for, and has
    attached to the dataset it returns one file, [output_filename + '.csv']
    under the [top] folder: the name the check compares with. *)
Theorem generate_community_uploads_what_is_checked (self : Self) (community : string)
    (c : Community) (title output_filename : string) (l : Locals) (w w' : World X)
    (t : Turn) :
  generate_community self community c title output_filename l w = (Ret t, w') ->
  exists evs county_list top id ofs,
    trace w' = trace w ++ evs /\
    t = Continue {| l_dataset_id := Some id; l_outputfolders := Some ofs |} /\
    ofs !! "top" = Some top /\
    In (EvCreateDataset {| md_title := title;
                           md_description := hui_description county_list;
                           md_dataType := "incore:housingUnitInventory";
                           md_format := "table" |}) evs /\
    In (EvAddFiles id [top +:+ "/" +:+ output_filename +:+ ".csv"]) evs.
Proof.
  unfold generate_community, bind at 1.
  destruct (combine_counties self c l w) as [[[[[cl raw] df] ofs]|e] w1] eqn:Hcomb;
    [|discriminate].
  apply combine_counties_before_upload in Hcomb. destruct Hcomb as (evs1 & Ht1 & _).
  unfold bind at 1.
  destruct (save_results df ofs output_filename w1) as [[[path o]|e] w2] eqn:Hsave;
    [|discriminate].
  assert (Hpath : exists top evs2,
             o !! "top" = Some top /\ path = top +:+ "/" +:+ output_filename +:+ ".csv" /\
             trace w2 = trace w1 ++ evs2).
  { revert Hsave. unfold save_results, bind, lift, ret, call, local_var, dict_get.
    destruct ofs as [o'|]; [|discriminate].
    destruct (o' !! "top") as [top|] eqn:Htop; [|discriminate]. cbn [ext trace stdin].
    split_innermost; intros [= <- <- <-]. exists top. eexists [_; _].
    repeat split; [exact Htop|]. cbn [trace]. now rewrite <- app_assoc. }
  destruct Hpath as (top & evs2 & Htop & -> & Ht2).
  unfold bind at 1.
  destruct (explore_and_upload _ _ _ _ _ _ _ _ _ w2) as [[id|e] w3] eqn:Hup;
    [|discriminate].
  apply explore_and_upload_completed in Hup. destruct Hup as (evs3 & Ht3 & Hmd & Hfiles).
  unfold ret. intros [= <- <-].
  exists (evs1 ++ evs2 ++ evs3), cl, top, id, o.
  split; [now rewrite Ht3, Ht2, Ht1, <- !app_assoc|].
  split; [reflexivity|]. split; [exact Htop|].
  split; apply in_or_app; right; apply in_or_app; now right.
Qed.

(** ** Two runs over one configuration *)

Lemma logs_always_input (Q : Event -> Prop) : logs_always Q (@input X).
Proof.
  intros w o w'. unfold input.
  destruct (stdin w); intros [= <- <-]; exists []; cbn; now rewrite app_nil_r.
Qed.

Lemma return_dataservice_id_before_upload (title output_filename : string) :
  logs_always before_upload (return_dataservice_id title output_filename).
Proof.
  unfold return_dataservice_id, check_file_on_incore, loginto_incore_dataservice.
  cbv zeta.
  repeat first [ apply logs_always_input | progress logs_always_steps ].
Qed.

(** What a run for a community has written, however it ends: nothing,
    and then it did not complete, or the start of the two tables of the
    frame it combined, and both of them when it completed. *)
Lemma generate_community_tables (self : Self) (community : string) (c : Community)
    (title output_filename : string) (l : Locals) (w w' : World X) (o : outcome Turn) :
  generate_community self community c title output_filename l w = (o, w') ->
  exists evs,
    trace w' = trace w ++ evs /\
    ((csv_writes evs = [] /\ forall t, o <> Ret t)
     \/ exists county_list raw df ofs w1 top,
          combine_counties self c l w = (Ret (county_list, raw, df, Some ofs), w1) /\
          ofs !! "top" = Some top /\
          csv_writes evs `prefix_of` tables_of df top output_filename /\
          (forall t, o = Ret t -> csv_writes evs = tables_of df top output_filename)).
Proof.
  unfold generate_community, bind at 1.
  destruct (combine_counties self c l w) as [[[[[cl raw] df] ofs]|e] w1] eqn:Hcomb;
    pose proof (combine_counties_before_upload _ _ _ _ _ _ Hcomb) as (evs1 & Ht1 & H1);
    apply before_upload_all in H1; destruct H1 as (Hc1 & _).
  2:{ intros [= <- <-]. exists evs1. split; [exact Ht1|]. left. now split. }
  unfold bind at 1. unfold save_results, bind, lift, ret, call, local_var, dict_get.
  destruct ofs as [ofs|].
  2:{ intros [= <- <-]. exists evs1. split; [exact Ht1|]. left. now split. }
  destruct (ofs !! "top") as [top|] eqn:Htop.
  2:{ intros [= <- <-]. exists evs1. split; [exact Ht1|]. left. now split. }
  cbn [ext trace stdin].
  fold (savefile_path top output_filename). fold (common_path top output_filename).
  destruct (to_csv df (savefile_path top output_filename) (ext w1)) as [[[]|e] x1].
  2:{ intros [= <- <-]. exists evs1. split; [exact Ht1|]. left. now split. }
  cbn [ext trace stdin].
  destruct (to_csv df (common_path top output_filename) x1) as [[[]|e] x2].
  2:{ intros [= <- <-]. exists (evs1 ++ [EvToCsv df (savefile_path top output_filename)]).
      cbn [trace]. split; [now rewrite Ht1, app_assoc|].
      right. exists cl, raw, df, ofs, w1, top.
      split; [reflexivity|]. split; [exact Htop|].
      rewrite csv_writes_app, Hc1. split; [|discriminate].
      now exists [(df, common_path top output_filename)]. }
  match goal with
  | |- context [explore_and_upload ?a ?b ?c ?d ?e ?f ?g ?h ?i ?v] =>
      destruct (explore_and_upload a b c d e f g h i v) as [o3 w3] eqn:Hup
  end.
  apply explore_and_upload_always in Hup. destruct Hup as (evs3 & Ht3 & Hc3 & _).
  cbn [trace] in Ht3. intros H.
  assert (Hw : w' = w3) by (destruct o3; unfold ret in H; now injection H).
  subst w'.
  exists (evs1 ++ [EvToCsv df (savefile_path top output_filename);
                   EvToCsv df (common_path top output_filename)] ++ evs3).
  split; [rewrite Ht3, Ht1, <- !app_assoc; reflexivity|].
  right. exists cl, raw, df, ofs, w1, top.
  split; [reflexivity|]. split; [exact Htop|].
  rewrite !csv_writes_app, Hc1, Hc3. split; [|reflexivity]. reflexivity.
Qed.

(** What a turn for a community does before it generates: the publish
    check, which writes no table; then the turn ends, or it goes on to
    generate the community. *)
Lemma community_turn_tables (self : Self) (community : string) (c : Community)
    (l : Locals) (w w' : World X) (o : outcome Turn) :
  community_turn self community c l w = (o, w') ->
  exists evs0 w0,
    trace w0 = trace w ++ evs0 /\ csv_writes evs0 = [] /\
    ((w' = w0 /\ ~ continues o)
     \/ exists l',
          generate_community self community c (title_of c)
            (output_filename_of self community) l' w0 = (o, w')).
Proof.
  unfold community_turn, bind at 1.
  destruct (return_dataservice_id _ _ w) as [[id|e] w0] eqn:Hcheck;
    apply return_dataservice_id_before_upload in Hcheck;
    destruct Hcheck as (evs0 & Ht0 & H0);
    apply before_upload_all in H0; destruct H0 as (Hc0 & _);
    intros H; exists evs0, w0; (split; [exact Ht0|]); (split; [exact Hc0|]).
  - destruct (is_not_None id).
    + injection H as <- <-. left. split; [reflexivity|]. intros [l' Hl]. discriminate Hl.
    + right. eexists. exact H.
  - injection H as <- <-. left. split; [reflexivity|]. intros [l' Hl]. discriminate Hl.
Qed.

(** A run that wrote no table and did not go on agrees with any other. *)
Lemma agree_with_nothing_l (ws1 ws2 : list (DataFrame * string)) (o1 o2 : outcome Turn) :
  ws1 = [] -> ~ continues o1 ->
  agree_so_far ws1 ws2 /\
  (continues o1 -> ws2 `prefix_of` ws1) /\
  (continues o2 -> ws1 `prefix_of` ws2).
Proof.
  intros -> Hn. split; [left; apply prefix_nil|].
  split; [intros H; now destruct (Hn H)|intros _; apply prefix_nil].
Qed.

Lemma agree_with_nothing_r (ws1 ws2 : list (DataFrame * string)) (o1 o2 : outcome Turn) :
  ws2 = [] -> ~ continues o2 ->
  agree_so_far ws1 ws2 /\
  (continues o1 -> ws2 `prefix_of` ws1) /\
  (continues o2 -> ws1 `prefix_of` ws2).
Proof.
  intros -> Hn. split; [right; apply prefix_nil|].
  split; [intros _; apply prefix_nil|intros H; now destruct (Hn H)].
Qed.

Section ByContext.

Hypothesis by_context : generation_by_context.

Lemma county_loop_by_context (self : Self) (cs : list (string * County)) :
  forall county_list d o1 o2 w1 w2 cl1 d1 of1 w1' cl2 d2 of2 w2',
    (cs = [] -> o1 = o2) ->
    county_loop self cs county_list d o1 w1 = (Ret (cl1, d1, of1), w1') ->
    county_loop self cs county_list d o2 w2 = (Ret (cl2, d2, of2), w2') ->
    cl1 = cl2 /\ d1 = d2 /\ of1 = of2.
Proof.
  induction cs as [|[key county] cs IH];
    intros county_list d o1 o2 w1 w2 cl1 d1 of1 w1' cl2 d2 of2 w2' Ho.
  - cbn. unfold ret. intros [= <- <- <- <-] [= <- <- <- <-]. now rewrite (Ho eq_refl).
  - cbn [county_loop]. unfold bind, call, lift.
    destruct (directory_design (Name county) (outputfolder self) (ext w1))
      as [[oa|e] x1] eqn:D1; [|discriminate].
    destruct (directory_design (Name county) (outputfolder self) (ext w2))
      as [[ob|e] y1] eqn:D2; [|intros _; discriminate].
    assert (oa = ob) as <-.
    { apply (by_directory_design by_context (Name county) (outputfolder self)
               (ext w1) (ext w2)); [now rewrite D1|now rewrite D2]. }
    cbn [ext trace stdin].
    destruct (run_hui_workflow _ x1) as [[ba|e] x2] eqn:R1; [|discriminate].
    destruct (run_hui_workflow _ y1) as [[bb|e] y2] eqn:R2; [|intros _; discriminate].
    assert (ba = bb) as <-.
    { eapply (by_run_hui_workflow by_context _ x1 y1); [now rewrite R1|now rewrite R2]. }
    cbn [ext trace stdin].
    destruct (ba !! "primary") as [primary|]; [|discriminate].
    destruct (final_polish_hui _ primary x2) as [[pa|e] x3] eqn:P1; [|discriminate].
    destruct (final_polish_hui _ primary y2) as [[pb|e] y3] eqn:P2;
      [|intros _; discriminate].
    assert (pa = pb) as <-.
    { eapply (by_final_polish_hui by_context _ _ x2 y2); [now rewrite P1|now rewrite P2]. }
    cbn [ext trace stdin].
    destruct (save_incore_version2 _ pa x3) as [[va|e] x4] eqn:S1; [|discriminate].
    destruct (save_incore_version2 _ pa y3) as [[vb|e] y4] eqn:S2;
      [|intros _; discriminate].
    assert (va = vb) as <-.
    { eapply (by_save_incore_version2 by_context _ _ x3 y3);
        [now rewrite S1|now rewrite S2]. }
    cbn [ext trace stdin].
    intros H1 H2. exact (IH _ _ _ _ _ _ _ _ _ _ _ _ _ _ (fun _ => eq_refl) H1 H2).
Qed.

(** The frames of a community that two runs both combined are the same
    frames. *)
Lemma combine_counties_by_context (self : Self) (c : Community) (l1 l2 : Locals)
    (w1 w2 w1' w2' : World X)
    (r1 r2 : string * DataFrame * DataFrame * option (gmap string string)) :
  combine_counties self c l1 w1 = (Ret r1, w1') ->
  combine_counties self c l2 w2 = (Ret r2, w2') ->
  r1 = r2.
Proof.
  unfold combine_counties, bind, lift, ret.
  destruct (counties c) as [|kc cs] eqn:Hcs; [cbn; intros H; discriminate H|].
  destruct (county_loop self (kc :: cs) "" [] (l_outputfolders l1) w1)
    as [[[[cl1 d1] o1]|e] v1] eqn:L1; [|discriminate].
  destruct (county_loop self (kc :: cs) "" [] (l_outputfolders l2) w2)
    as [[[[cl2 d2] o2]|e] v2] eqn:L2; [|intros _; discriminate].
  assert (Hne : kc :: cs = [] -> l_outputfolders l1 = l_outputfolders l2)
    by (intros H; discriminate H).
  destruct (county_loop_by_context _ _ _ _ _ _ _ _ _ _ _ _ _ _ _ _ Hne L1 L2)
    as (<- & <- & <-).
  destruct (pd_concat (dict_values d1)) as [raw|]; [|discriminate].
  destruct (applymap remove_dot0 raw) as [df|]; [|discriminate].
  now intros [= <- <-] [= <- <-].
Qed.

Lemma generate_community_agree (self : Self) (community : string) (c : Community)
    (title output_filename : string) (l1 l2 : Locals) (w1 w2 w1' w2' : World X)
    (o1 o2 : outcome Turn) :
  generate_community self community c title output_filename l1 w1 = (o1, w1') ->
  generate_community self community c title output_filename l2 w2 = (o2, w2') ->
  exists evs1 evs2,
    trace w1' = trace w1 ++ evs1 /\ trace w2' = trace w2 ++ evs2 /\
    agree_so_far (csv_writes evs1) (csv_writes evs2) /\
    (continues o1 -> csv_writes evs2 `prefix_of` csv_writes evs1) /\
    (continues o2 -> csv_writes evs1 `prefix_of` csv_writes evs2).
Proof.
  intros H1 H2.
  apply generate_community_tables in H1. destruct H1 as (evs1 & Ht1 & C1).
  apply generate_community_tables in H2. destruct H2 as (evs2 & Ht2 & C2).
  exists evs1, evs2. split; [exact Ht1|]. split; [exact Ht2|].
  destruct C1 as [[E1 N1]|(cl1 & raw1 & df1 & ofs1 & v1 & top1 & Hc1 & Htop1 & P1 & F1)].
  { apply agree_with_nothing_l; [exact E1|]. intros [l' ->]. now apply (N1 (Continue l')). }
  destruct C2 as [[E2 N2]|(cl2 & raw2 & df2 & ofs2 & v2 & top2 & Hc2 & Htop2 & P2 & F2)].
  { apply agree_with_nothing_r; [exact E2|]. intros [l' ->]. now apply (N2 (Continue l')). }
  pose proof (combine_counties_by_context _ _ _ _ _ _ _ _ _ _ Hc1 Hc2) as E.
  injection E as <- <- <- <-.
  assert (top1 = top2) as <- by congruence.
  split; [exact (prefix_weak_total _ _ _ P1 P2)|].
  split; intros [l' ->].
  - rewrite (F1 _ eq_refl). exact P2.
  - rewrite (F2 _ eq_refl). exact P1.
Qed.

Lemma community_turn_agree (self : Self) (community : string) (c : Community)
    (l1 l2 : Locals) (w1 w2 w1' w2' : World X) (o1 o2 : outcome Turn) :
  community_turn self community c l1 w1 = (o1, w1') ->
  community_turn self community c l2 w2 = (o2, w2') ->
  exists evs1 evs2,
    trace w1' = trace w1 ++ evs1 /\ trace w2' = trace w2 ++ evs2 /\
    agree_so_far (csv_writes evs1) (csv_writes evs2) /\
    (continues o1 -> csv_writes evs2 `prefix_of` csv_writes evs1) /\
    (continues o2 -> csv_writes evs1 `prefix_of` csv_writes evs2).
Proof.
  intros H1 H2.
  apply community_turn_tables in H1. destruct H1 as (ea & va & Hta & Hca & Ca).
  apply community_turn_tables in H2. destruct H2 as (eb & vb & Htb & Hcb & Cb).
  destruct Ca as [[-> Na]|[la Ga]].
  - assert (Hb : exists evs2, trace w2' = trace w2 ++ evs2).
    { destruct Cb as [[-> _]|[lb Gb]]; [now exists eb|].
      apply generate_community_tables in Gb. destruct Gb as (evs & Ht & _).
      exists (eb ++ evs). now rewrite Ht, Htb, app_assoc. }
    destruct Hb as (evs2 & Ht2). exists ea, evs2.
    split; [exact Hta|]. split; [exact Ht2|].
    now apply agree_with_nothing_l.
  - destruct Cb as [[-> Nb]|[lb Gb]].
    + apply generate_community_tables in Ga. destruct Ga as (evs & Ht & _).
      exists (ea ++ evs), eb.
      split; [now rewrite Ht, Hta, app_assoc|]. split; [exact Htb|].
      now apply agree_with_nothing_r.
    + destruct (generate_community_agree _ _ _ _ _ _ _ _ _ _ _ _ _ Ga Gb)
        as (evs1 & evs2 & Ht1 & Ht2 & A & B & C).
      exists (ea ++ evs1), (eb ++ evs2).
      split; [now rewrite Ht1, Hta, app_assoc|].
      split; [now rewrite Ht2, Htb, app_assoc|].
      rewrite !csv_writes_app, Hca, Hcb. auto.
Qed.

Lemma communities_loop_agree (self : Self) (cs : list (string * Community)) :
  forall l1 l2 w1 w2 w1' w2' o1 o2,
    communities_loop self cs l1 w1 = (o1, w1') ->
    communities_loop self cs l2 w2 = (o2, w2') ->
    exists evs1 evs2,
      trace w1' = trace w1 ++ evs1 /\ trace w2' = trace w2 ++ evs2 /\
      agree_so_far (csv_writes evs1) (csv_writes evs2) /\
      (continues o1 -> csv_writes evs2 `prefix_of` csv_writes evs1) /\
      (continues o2 -> csv_writes evs1 `prefix_of` csv_writes evs2).
Proof.
  induction cs as [|[community c] cs IH]; intros l1 l2 w1 w2 w1' w2' o1 o2.
  - cbn. unfold ret. intros [= <- <-] [= <- <-]. exists [], [].
    rewrite !app_nil_r. split; [reflexivity|]. split; [reflexivity|].
    split; [now left|]. split; intros _; reflexivity.
  - cbn [communities_loop]. unfold bind.
    destruct (community_turn self community c l1 w1) as [t1 v1] eqn:T1.
    destruct (community_turn self community c l2 w2) as [t2 v2] eqn:T2.
    destruct (community_turn_agree _ _ _ _ _ _ _ _ _ _ _ T1 T2)
      as (ea & eb & Hta & Htb & A & B & C).
    assert (Pa : continues t1 -> csv_writes eb `prefix_of` csv_writes ea) by exact B.
    assert (Pb : continues t2 -> csv_writes ea `prefix_of` csv_writes eb) by exact C.
    destruct t1 as [[r1|la]|e1], t2 as [[r2|lb]|e2]; unfold ret.
    all: try (intros [= <- <-] [= <- <-]; exists ea, eb;
              repeat split; auto; intros [l' Hl]; discriminate Hl).
    + (* the second run goes on, the first returns *)
      intros [= <- <-] H2.
      destruct (IH _ _ _ _ _ _ _ _ H2 H2) as (e2r & _ & Ht2r & _).
      specialize (Pb ltac:(now eexists)).
      exists ea, (eb ++ e2r).
      split; [exact Hta|]. split; [now rewrite Ht2r, Htb, app_assoc|].
      rewrite csv_writes_app.
      split; [left; now apply prefix_app_r|].
      split; [intros [l' Hl]; discriminate Hl|intros _; now apply prefix_app_r].
    + (* the first run goes on, the second returns *)
      intros H1 [= <- <-].
      destruct (IH _ _ _ _ _ _ _ _ H1 H1) as (e1r & _ & Ht1r & _).
      specialize (Pa ltac:(now eexists)).
      exists (ea ++ e1r), eb.
      split; [now rewrite Ht1r, Hta, app_assoc|]. split; [exact Htb|].
      rewrite csv_writes_app.
      split; [right; now apply prefix_app_r|].
      split; [intros _; now apply prefix_app_r|intros [l' Hl]; discriminate Hl].
    + (* both go on *)
      intros H1 H2.
      destruct (IH _ _ _ _ _ _ _ _ H1 H2) as (e1r & e2r & Ht1r & Ht2r & Ar & Br & Cr).
      specialize (Pa ltac:(now eexists)). specialize (Pb ltac:(now eexists)).
      assert (E : csv_writes ea = csv_writes eb) by now apply (anti_symm prefix).
      exists (ea ++ e1r), (eb ++ e2r).
      split; [now rewrite Ht1r, Hta, app_assoc|].
      split; [now rewrite Ht2r, Htb, app_assoc|].
      rewrite !csv_writes_app, E.
      split; [destruct Ar as [Ar|Ar]; [left|right]; now apply prefix_app|].
      split; intros Hc; apply prefix_app; auto.
    + (* the first run goes on, the second raises *)
      intros H1 [= <- <-].
      destruct (IH _ _ _ _ _ _ _ _ H1 H1) as (e1r & _ & Ht1r & _).
      specialize (Pa ltac:(now eexists)).
      exists (ea ++ e1r), eb.
      split; [now rewrite Ht1r, Hta, app_assoc|]. split; [exact Htb|].
      rewrite csv_writes_app.
      split; [right; now apply prefix_app_r|].
      split; [intros _; now apply prefix_app_r|intros [l' Hl]; discriminate Hl].
    + (* the second run goes on, the first raises *)
      intros [= <- <-] H2.
      destruct (IH _ _ _ _ _ _ _ _ H2 H2) as (e2r & _ & Ht2r & _).
      specialize (Pb ltac:(now eexists)).
      exists ea, (eb ++ e2r).
      split; [exact Hta|]. split; [now rewrite Ht2r, Htb, app_assoc|].
      rewrite csv_writes_app.
      split; [left; now apply prefix_app_r|].
      split; [intros [l' Hl]; discriminate Hl|intros _; now apply prefix_app_r].
Qed.

(** C7. With a county generation that answers by its run context (seed,
    version, vintage, FIPS code, name, paths) on one snapshot of the
    sources, the tables two runs of [generate_hui_v2_for_incore] over
    one configuration write are the same tables, written to the same
    paths in the same order, as far as both runs go: whatever differs
    between the two worlds (the catalog, the files, what is typed, which
    operation fails), one run has written what the other has, or the
    start of it. When both runs generate every community they have
    written the very same tables. *)
Theorem generate_twice_tables_agree (self : Self) (w1 w2 : World X) :
  exists evs1 evs2,
    trace (snd (generate_hui_v2_for_incore self w1)) = trace w1 ++ evs1 /\
    trace (snd (generate_hui_v2_for_incore self w2)) = trace w2 ++ evs2 /\
    agree_so_far (csv_writes evs1) (csv_writes evs2) /\
    (generates_all self w1 -> generates_all self w2 ->
     csv_writes evs1 = csv_writes evs2).
Proof.
  unfold generate_hui_v2_for_incore, generates_all, bind.
  destruct (communities_loop self (communities self) _ w1) as [o1 v1] eqn:L1.
  destruct (communities_loop self (communities self) _ w2) as [o2 v2] eqn:L2.
  destruct (communities_loop_agree _ _ _ _ _ _ _ _ _ _ L1 L2)
    as (evs1 & evs2 & Ht1 & Ht2 & A & B & C).
  exists evs1, evs2.
  split; [destruct o1 as [[?|?]|?]; exact Ht1|].
  split; [destruct o2 as [[?|?]|?]; exact Ht2|].
  split; [exact A|].
  intros (la & va & [= -> _]) (lb & vb & [= -> _]).
  apply (anti_symm prefix); [apply C|apply B]; now eexists.
Qed.

End ByContext.

End Methods.

(** ** Removing [.0] *)

#[local] Arguments String.append !s1 s2 : simpl nomatch.

Lemma endswith_refl (s : string) : endswith s s = true.
Proof. destruct s; cbn; rewrite ?Ascii.eqb_refl, ?String.eqb_refl; reflexivity. Qed.

Lemma endswith_app_r (a t suf : string) :
  endswith t suf = true -> endswith (a +:+ t) suf = true.
Proof.
  intros H. induction a as [|c a IH]; [exact H|].
  cbn [String.append endswith]. rewrite IH. apply orb_true_r.
Qed.

Lemma endswith_dot0_last (s : string) :
  endswith s ".0" = true -> str_last s = Some "0"%char.
Proof.
  induction s as [|c t IH]; [discriminate|].
  cbn [endswith]. intros H. apply orb_true_iff in H. destruct H as [H|H].
  - apply String.eqb_eq in H. now rewrite H.
  - specialize (IH H). destruct t; [discriminate|]. exact IH.
Qed.

Lemma str_last_app (a b : string) :
  b <> EmptyString -> str_last (a +:+ b) = str_last b.
Proof.
  intros Hb. induction a as [|c a IH]; [reflexivity|].
  cbn [String.append]. destruct (a +:+ b) eqn:E.
  - destruct a, b; cbn in E; congruence.
  - cbn [str_last]. exact IH.
Qed.

Lemma str_last_drop (k : nat) (s : string) :
  (k < String.length s)%nat -> str_last (str_drop k s) = str_last s.
Proof.
  revert s. induction k as [|k IH]; intros s Hk; [now destruct s|].
  destruct s as [|c t]; [cbn in Hk; lia|].
  cbn [str_drop]. cbn in Hk. rewrite IH by lia.
  destruct t; [cbn in Hk; lia|reflexivity].
Qed.

Lemma str_drop_nonempty (k : nat) (s : string) :
  (k < String.length s)%nat -> str_drop k s <> EmptyString.
Proof.
  revert s. induction k as [|k IH]; intros s Hk.
  - destruct s; [cbn in Hk; lia|discriminate].
  - destruct s as [|c t]; [cbn in Hk; lia|]. cbn in *. apply IH. lia.
Qed.

Lemma no_point_app (a b : string) : no_point a -> no_point b -> no_point (a +:+ b).
Proof.
  induction a as [|c a IH]; [easy|]. cbn. intros [Hc Ha] Hb. split; auto.
Qed.

Lemma no_point_endswith (s : string) : no_point s -> endswith s ".0" = false.
Proof.
  induction s as [|c t IH]; [reflexivity|].
  cbn [no_point endswith]. intros [Hc Ht]. rewrite (IH Ht), orb_false_r.
  apply String.eqb_neq. congruence.
Qed.

Lemma endswith_app_long (a q : string) :
  (2 <= String.length q)%nat -> endswith (a +:+ q) ".0" = endswith q ".0".
Proof.
  intros Hq. induction a as [|c a IH]; [reflexivity|].
  cbn [String.append endswith]. rewrite IH.
  replace (String.eqb (String c (a +:+ q)) ".0") with false; [reflexivity|].
  symmetry. apply String.eqb_neq. intros H. injection H as _ H.
  destruct a as [|c' a]; cbn in H.
  - subst q. cbn in Hq. lia.
  - injection H as _ H.
    destruct a; cbn in H; [subst q; cbn in Hq; lia|discriminate].
Qed.

Lemma no_point_uint (u : Decimal.uint) : no_point (NilEmpty.string_of_uint u).
Proof. induction u; cbn; auto; split; auto; discriminate. Qed.

Lemma str_of_Z_no_point (n : Z) : no_point (str_of_Z n) /\ str_of_Z n <> EmptyString.
Proof.
  unfold str_of_Z, NilZero.string_of_int, NilZero.string_of_uint.
  destruct (Z.to_int n) as [u|u].
  - destruct u; cbn; repeat split; try discriminate; apply no_point_uint.
  - split; [|discriminate]. split; [discriminate|].
    destruct u; cbn; repeat split; try discriminate; apply no_point_uint.
Qed.

Lemma exponent_str_shape (e : Z) :
  no_point (exponent_str e) /\ (2 <= String.length (exponent_str e))%nat.
Proof.
  unfold exponent_str. destruct (str_of_Z_no_point (Z.abs e)) as [Hn Hne].
  split.
  - repeat apply no_point_app; try exact Hn;
      repeat match goal with |- context [if ?b then _ else _] => destruct b end;
      cbn; repeat split; discriminate.
  - destruct (str_of_Z (Z.abs e)) as [|c t]; [congruence|].
    repeat match goal with |- context [if ?b then _ else _] => destruct b end;
      cbn; lia.
Qed.

Lemma float_repr_whole (neg : bool) (ds : string) (decpt : Z) :
  whole_below_1e16 ds decpt ->
  endswith (float_repr (FFinite neg ds decpt)) ".0" = true.
Proof.
  intros [Hne [Hlo Hhi]]. unfold float_repr.
  assert (0 < Z.of_nat (String.length ds)) by (destruct ds; [congruence|cbn; lia]).
  replace ((decpt <=? -4) || (16 <? decpt)) with false
    by (symmetry; apply orb_false_iff; lia).
  replace (decpt <=? 0) with false by lia.
  replace (decpt <? Z.of_nat (String.length ds)) with false by lia.
  repeat apply endswith_app_r. reflexivity.
Qed.

Lemma append_assoc (a b c : string) : (a +:+ b) +:+ c = a +:+ (b +:+ c).
Proof. induction a as [|x a IH]; cbn; [reflexivity|now rewrite IH]. Qed.

Lemma endswith_last_not0 (a q : string) (c : ascii) :
  str_last q = Some c -> c <> "0"%char -> endswith (a +:+ q) ".0" = false.
Proof.
  intros Hlast Hc. destruct (endswith (a +:+ q) ".0") eqn:E; [|reflexivity].
  apply endswith_dot0_last in E. rewrite str_last_app in E by (intros ->; discriminate).
  congruence.
Qed.

Lemma float_repr_fractional (neg : bool) (ds : string) (decpt : Z) :
  fractional ds decpt ->
  endswith (float_repr (FFinite neg ds decpt)) ".0" = false.
Proof.
  intros [Hlt (c & Hlast & Hc)]. unfold float_repr.
  destruct ((decpt <=? -4) || (16 <? decpt)) eqn:Hexp.
  - destruct (exponent_str_shape (decpt - 1)) as [Hnp Hlen].
    rewrite <- !append_assoc. rewrite endswith_app_long by exact Hlen.
    now apply no_point_endswith.
  - destruct (decpt <=? 0) eqn:H0.
    + rewrite <- !append_assoc. now apply endswith_last_not0 with c.
    + destruct (decpt <? Z.of_nat (String.length ds)) eqn:Hn; [|lia].
      rewrite <- !append_assoc. apply endswith_last_not0 with c; [|exact Hc].
      rewrite str_last_drop by lia. exact Hlast.
Qed.

Lemma str_of_Z_endswith (n : Z) : endswith (str_of_Z n) ".0" = false.
Proof. apply no_point_endswith, str_of_Z_no_point. Qed.

Lemma remove_dot0_returns (c : cell) :
  no_dot0_text c -> exists c', remove_dot0 c = Ret c'.
Proof.
  unfold remove_dot0. destruct c as [n|f|s|b|]; cbn [py_str py_int no_dot0_text].
  - intros _. rewrite str_of_Z_endswith. eauto.
  - intros _. destruct f as [neg ds decpt|neg|].
    + destruct (endswith _ _); cbn; eauto.
    + destruct neg; cbn; eauto.
    + cbn. eauto.
  - intros ->. eauto.
  - intros _. destruct b; cbn; eauto.
  - intros _. cbn. eauto.
Qed.

Lemma mapO_Forall2 {A B} (f : A -> outcome B) (xs : list A) (ys : list B) :
  mapO f xs = Ret ys -> Forall2 (fun x y => f x = Ret y) xs ys.
Proof.
  revert ys. induction xs as [|x xs IH]; intros ys; cbn.
  - intros [= <-]. constructor.
  - destruct (f x) as [y|] eqn:E; [|discriminate]. cbn.
    destruct (mapO f xs) as [ys'|]; [|discriminate]. cbn.
    intros [= <-]. constructor; auto.
Qed.

Lemma mapO_returns {A B} (P : A -> Prop) (f : A -> outcome B) (xs : list A) :
  (forall x, P x -> exists y, f x = Ret y) ->
  Forall P xs -> exists ys, mapO f xs = Ret ys.
Proof.
  intros Hf. induction 1 as [|x xs Hx _ [ys IH]]; cbn; [eauto|].
  destruct (Hf x Hx) as [y ->]. rewrite IH. cbn. eauto.
Qed.

Lemma remove_dot0_whole (neg : bool) (ds : string) (decpt : Z) :
  whole_below_1e16 ds decpt ->
  remove_dot0 (CFloat (FFinite neg ds decpt)) = Ret (CInt (whole_value neg ds decpt)).
Proof.
  intros Hw. unfold remove_dot0. cbn [py_str py_int].
  rewrite (float_repr_whole neg ds decpt Hw).
  destruct Hw as [_ [Hlo _]]. unfold int_of_float, whole_value.
  replace (Z.of_nat (String.length ds) <=? decpt) with true by lia.
  reflexivity.
Qed.

Lemma remove_dot0_fractional (neg : bool) (ds : string) (decpt : Z) :
  fractional ds decpt ->
  remove_dot0 (CFloat (FFinite neg ds decpt)) = Ret (CFloat (FFinite neg ds decpt)).
Proof.
  intros Hf. unfold remove_dot0. cbn [py_str].
  now rewrite (float_repr_fractional neg ds decpt Hf).
Qed.

(** *** The columns of the table [applymap] returns *)

Lemma column_imap (g : nat -> cell -> cell) (j : nat) (df : DataFrame) :
  column j (map (fun row : list cell => imap g row) df) = map (g j) (column j df).
Proof.
  unfold column. induction df as [|row df IH]; [reflexivity|].
  cbn [map omap list_omap]. rewrite list_lookup_imap.
  destruct (row !! j) as [c|]; cbn; now rewrite IH.
Qed.

Lemma column_infer_columns (j : nat) (df : DataFrame) :
  column j (infer_columns df) = map (astype (infer_dtype (column j df))) (column j df).
Proof. unfold infer_columns. apply column_imap. Qed.

Lemma column_Forall2 (R : cell -> cell -> Prop) (j : nat) (df df' : DataFrame) :
  Forall2 (Forall2 R) df df' -> Forall2 R (column j df) (column j df').
Proof.
  unfold column. induction 1 as [|row row' df df' Hrow _ IH]; [constructor|].
  cbn [omap list_omap].
  destruct (row !! j) as [c|] eqn:E.
  - destruct (Forall2_lookup_l _ _ _ _ _ Hrow E) as (c' & -> & Hc). now constructor.
  - destruct (row' !! j) as [c'|] eqn:E'; [|exact IH].
    destruct (Forall2_lookup_r _ _ _ _ _ Hrow E') as (c & Hc & _). congruence.
Qed.

Lemma applymap_columns (df df' : DataFrame) (j : nat) :
  applymap remove_dot0 df = Ret df' ->
  exists mapped : list cell,
    Forall2 (fun c r => remove_dot0 c = Ret r) (column j df) mapped /\
    column j df' = map (astype (infer_dtype mapped)) mapped.
Proof.
  unfold applymap.
  destruct (mapO (mapO remove_dot0) df) as [m|] eqn:Hm; [|discriminate].
  cbn. intros [= <-]. exists (column j m). split; [|apply column_infer_columns].
  apply column_Forall2. apply mapO_Forall2 in Hm.
  eapply Forall2_impl; [exact Hm|]. intros row row' H. now apply mapO_Forall2.
Qed.

Lemma remove_dot0_number (c r : cell) :
  is_number c = true -> remove_dot0 c = Ret r -> is_number r = true.
Proof.
  unfold remove_dot0. destruct (endswith (py_str c) ".0").
  - destruct (py_int c); [|discriminate]. cbn. now intros _ [= <-].
  - now intros H [= <-].
Qed.

Lemma existsb_number (p : cell -> bool) (cs : list cell) :
  (forall c, is_number c = true -> p c = false) ->
  Forall (fun c => is_number c = true) cs -> existsb p cs = false.
Proof.
  intros Hp. induction 1 as [|c cs Hc _ IH]; [reflexivity|].
  cbn. now rewrite (Hp c Hc), IH.
Qed.

Lemma infer_dtype_float (cs : list cell) (f : pyfloat) :
  Forall (fun c => is_number c = true) cs -> In (CFloat f) cs ->
  infer_dtype cs = DtFloat.
Proof.
  intros Hn Hf. unfold infer_dtype.
  rewrite (existsb_number is_text), (existsb_number is_bool); try exact Hn;
    try (intros [] H; now try discriminate H).
  replace (existsb is_float cs) with true; [reflexivity|].
  symmetry. apply existsb_exists. now exists (CFloat f).
Qed.

(** C2, where the code departs from it. Take a column of numbers in
    which [remove_dot0] leaves one float as it is: a missing value, which
    is NaN, or a fractional value. In the table [applymap] returns that
    column is a float column again: every cell is what [remove_dot0]
    returned put back into a float, so a code that a join left as [4.0]
    and that the lambda turned into the int [4] stays [4.0] beside a
    missing value. *)
Theorem applymap_keeps_floats_beside_nan (df df' : DataFrame) (j : nat) (f : pyfloat) :
  applymap remove_dot0 df = Ret df' ->
  Forall (fun c => is_number c = true) (column j df) ->
  In (CFloat f) (column j df) ->
  remove_dot0 (CFloat f) = Ret (CFloat f) ->
  Forall2 (fun c c' => exists r, remove_dot0 c = Ret r /\ c' = astype DtFloat r)
    (column j df) (column j df')
  /\ Forall (fun c' => is_float c' = true) (column j df').
Proof.
  intros Happ Hnum Hin Hf.
  destruct (applymap_columns df df' j Happ) as (mapped & Hmap & ->).
  assert (Hnum' : Forall (fun r => is_number r = true) mapped).
  { clear Hin. induction Hmap as [|c r cs rs Hc _ IH]; [constructor|].
    inversion Hnum; subst. constructor; [now apply (remove_dot0_number c)|now apply IH]. }
  assert (Hin' : In (CFloat f) mapped).
  { clear Hnum Hnum'. induction Hmap as [|c r cs rs Hc _ IH]; [destruct Hin|].
    destruct Hin as [->|Hin]; [left; congruence|right; now apply IH]. }
  rewrite (infer_dtype_float mapped f Hnum' Hin'). clear Hin Hin' Hnum. split.
  - induction Hmap as [|c r cs rs Hc _ IH]; [constructor|].
    inversion Hnum'; subst. constructor; [now exists r|now apply IH].
  - clear Hmap. induction Hnum' as [|r rs Hr _ IH]; [constructor|].
    constructor; [now destruct r|exact IH].
Qed.

(** ** More on removing [.0] *)

(** X10. Removing [.0] a second time changes nothing: a cell that
    [remove_dot0] returned is returned as it is. *)
Theorem remove_dot0_idempotent (c c' : cell) :
  remove_dot0 c = Ret c' -> remove_dot0 c' = Ret c'.
Proof.
  unfold remove_dot0 at 1.
  destruct (endswith (py_str c) ".0") eqn:E.
  - destruct (py_int c) as [n|]; [|discriminate]. cbn. intros [= <-].
    unfold remove_dot0. cbn [py_str]. now rewrite str_of_Z_endswith.
  - intros [= <-]. unfold remove_dot0. now rewrite E.
Qed.

Lemma parse_digits_point (s : string) :
  has_point s -> forall acc seen, parse_digits s acc seen = None.
Proof.
  induction s as [|c t IH]; [intros []|].
  intros [->|Ht] acc seen; [reflexivity|].
  cbn [parse_digits]. destruct (digit_value c); [now apply IH|].
  destruct (Ascii.eqb c "_" && seen)%bool; [|reflexivity].
  destruct t as [|c' t']; [reflexivity|].
  destruct (digit_value c'); [now apply IH|reflexivity].
Qed.

Lemma endswith_has_point (s : string) : endswith s ".0" = true -> has_point s.
Proof.
  induction s as [|c t IH]; [discriminate|].
  cbn [endswith]. intros H. apply orb_true_iff in H. destruct H as [H|H].
  - apply String.eqb_eq in H. injection H as -> _. now left.
  - right. now apply IH.
Qed.

Lemma lstrip_endswith (s : string) :
  endswith s ".0" = true -> endswith (lstrip s) ".0" = true.
Proof.
  induction s as [|c t IH]; [discriminate|].
  intros H. cbn [lstrip]. destruct (is_space c) eqn:Hs; [|exact H].
  cbn [endswith] in H. apply orb_true_iff in H. destruct H as [H|H]; [|now apply IH].
  apply String.eqb_eq in H. injection H as -> _. discriminate Hs.
Qed.

Lemma rstrip_endswith (s : string) : endswith s ".0" = true -> rstrip s = s.
Proof.
  induction s as [|c t IH]; [discriminate|].
  cbn [endswith]. intros H. apply orb_true_iff in H. destruct H as [H|H].
  - apply String.eqb_eq in H. now rewrite H.
  - cbn [rstrip]. rewrite (IH H). destruct t; [discriminate|reflexivity].
Qed.

Lemma int_of_str_point (s : string) :
  endswith s ".0" = true -> int_of_str s = Raise ValueError.
Proof.
  intros H. apply lstrip_endswith in H. unfold int_of_str.
  rewrite (rstrip_endswith _ H). apply endswith_has_point in H.
  destruct (lstrip s) as [|c t]; [destruct H|].
  assert (Hfull : parse_digits (String c t) 0 false = None)
    by now apply parse_digits_point.
  assert (Htail : c <> "."%char -> parse_digits t 0 false = None).
  { intros Hc. apply parse_digits_point. destruct H as [->|H]; [congruence|exact H]. }
  destruct c as [[] [] [] [] [] [] [] []];
    first [ rewrite Hfull; reflexivity
          | rewrite Htail by discriminate; reflexivity ].
Qed.

(** X11. A text cell that ends in [.0] makes [remove_dot0] raise
    [ValueError], and [ValueError] for such a cell is the only way the
    normalization of a table fails. *)
Theorem remove_dot0_text_raises :
  (forall s, endswith s ".0" = true -> remove_dot0 (CStr s) = Raise ValueError)
  /\ (forall (df : DataFrame) e,
        applymap remove_dot0 df = Raise e ->
        e = ValueError /\
        exists row s, In row df /\ In (CStr s) row /\ endswith s ".0" = true).
Proof.
  assert (Htext : forall s, endswith s ".0" = true -> remove_dot0 (CStr s) = Raise ValueError).
  { intros s H. unfold remove_dot0. cbn [py_str py_int]. rewrite H.
    now rewrite (int_of_str_point s H). }
  split; [exact Htext|].
  assert (Hcell : forall c e, remove_dot0 c = Raise e ->
                              e = ValueError /\ exists s, c = CStr s /\ endswith s ".0" = true).
  { intros c e Hc. destruct c as [n|f|s|b|].
    - destruct (remove_dot0_returns (CInt n) I) as [c' Hc']. congruence.
    - destruct (remove_dot0_returns (CFloat f) I) as [c' Hc']. congruence.
    - destruct (endswith s ".0") eqn:E.
      + rewrite (Htext s E) in Hc. injection Hc as <-. eauto.
      + destruct (remove_dot0_returns (CStr s) E) as [c' Hc']. congruence.
    - destruct (remove_dot0_returns (CBool b) I) as [c' Hc']. congruence.
    - destruct (remove_dot0_returns CNone I) as [c' Hc']. congruence. }
  assert (Hrow : forall (row : list cell) e,
             mapO remove_dot0 row = Raise e ->
             e = ValueError /\ exists s, In (CStr s) row /\ endswith s ".0" = true).
  { induction row as [|c row IH]; intros e; [discriminate|].
    cbn. destruct (remove_dot0 c) as [c'|e'] eqn:Hc; cbn.
    - destruct (mapO remove_dot0 row) as [row'|e''] eqn:Hr; cbn; [discriminate|].
      intros [= <-]. destruct (IH _ eq_refl) as (-> & s & Hin & Hs).
      split; [reflexivity|]. exists s. split; [now right|exact Hs].
    - intros [= <-]. destruct (Hcell _ _ Hc) as (-> & s & -> & Hs).
      split; [reflexivity|]. exists s. split; [now left|exact Hs]. }
  assert (Hrows : forall (df : DataFrame) e,
             mapO (mapO remove_dot0) df = Raise e ->
             e = ValueError /\
             exists row s, In row df /\ In (CStr s) row /\ endswith s ".0" = true).
  { induction df as [|row df IH]; intros e; [discriminate|].
    cbn. destruct (mapO remove_dot0 row) as [row'|e'] eqn:Hr; cbn.
    - destruct (mapO (mapO remove_dot0) df) as [df'|e''] eqn:Hd; cbn; [discriminate|].
      intros [= <-]. destruct (IH _ eq_refl) as (-> & r & s & Hin & Hs).
      split; [reflexivity|]. exists r, s. split; [now right|exact Hs].
    - intros [= <-]. destruct (Hrow _ _ Hr) as (-> & s & Hin & Hs).
      split; [reflexivity|]. exists row, s. split; [now left|]. now split. }
  intros df e. unfold applymap.
  destruct (mapO (mapO remove_dot0) df) as [m|e'] eqn:Hm; cbn; [discriminate|].
  intros [= <-]. now apply Hrows.
Qed.

(** ** The file name carries the seed *)

Lemma str_of_Z_inj (a b : Z) : str_of_Z a = str_of_Z b -> a = b.
Proof.
  unfold str_of_Z. intros H.
  assert (Hnil : forall z, Z.to_int z <> Decimal.Pos Decimal.Nil /\
                           Z.to_int z <> Decimal.Neg Decimal.Nil).
  { intros [|p|p]; cbn; split; try discriminate; intros [= Hp];
      now apply DecimalPos.Unsigned.to_uint_nonnil in Hp. }
  apply (f_equal NilZero.int_of_string) in H.
  rewrite !NilZero.isi in H by apply Hnil.
  injection H as H. now apply DecimalZ.to_int_inj.
Qed.

(** X12. Two configurations that differ in the seed only give a
    community two different output file names, so a table made with one
    seed does not pass for the table of another. *)
Theorem output_filename_of_seed (self : Self) (community : string) (s1 s2 : Z) :
  s1 <> s2 ->
  output_filename_of (with_seed self s1) community
  <> output_filename_of (with_seed self s2) community.
Proof.
  unfold output_filename_of, with_seed. cbn [version_text basevintage seed].
  intros Hne H. repeat apply String.app_inj in H. now apply str_of_Z_inj in H.
Qed.

(** ** The constructor *)

Section ConstructorProperties.

Context {FS : Type}.
Variable path_exists : string -> FS -> bool.
Variable mkdir : string -> FS -> outcome unit * FS.

(** X1. On a file system where a folder that [os.mkdir] made is found by
    [os.path.exists], constructing the object a second time, after a
    first time that completed, completes as well, gives the same object
    and leaves the file system as it is: the folder is made once. *)
Theorem init_twice (communities : list (string * Community)) (seed : Z)
    (version version_text : string) (basevintage : Z) (outputfolder : string)
    (outputfolders : gmap string string) (savefiles : bool) (fs fs1 : FS) (self : Self) :
  (forall p a b u, mkdir p a = (Ret u, b) -> path_exists p b = true) ->
  init path_exists mkdir communities seed version version_text basevintage outputfolder
    outputfolders savefiles fs = (Ret self, fs1) ->
  init path_exists mkdir communities seed version version_text basevintage outputfolder
    outputfolders savefiles fs1 = (Ret self, fs1).
Proof.
  intros Hmk. unfold init.
  destruct (path_exists outputfolder fs) eqn:E; cbn [negb].
  - intros [= <- <-]. now rewrite E.
  - destruct (mkdir outputfolder fs) as [[u|e] fs'] eqn:M; [|discriminate].
    intros [= <- <-]. now rewrite (Hmk _ _ _ _ M).
Qed.

End ConstructorProperties.

(** ** The properties at work on the stand-ins *)

(** A method or a theorem with every collaborator replaced by its
    stand-in, over the catalog [cat]. *)
Notation "'on_stand_ins' cat f" :=
  (f nat unit unit canned_IncoreClient canned_base_url (canned_get cat)
     canned_create_dataset canned_add_files canned_urljoin "/home/user"
     canned_directory_design canned_run_hui_workflow canned_pass canned_pass
     canned_income_distribution canned_create_codebook tt canned_to_csv)
  (at level 10, cat at level 9, f at level 9, only parsing).

Notation "'check_on' cat" :=
  (return_dataservice_id canned_IncoreClient canned_base_url (canned_get cat) canned_urljoin)
  (at level 10, cat at level 9, only parsing).

(** The catalog holds the table of Lumberton, or holds nothing. *)
Lemma return_dataservice_id_one_or_none_witness :
  fst (check_on catalog_found lumberton_title lumberton_filename (start []))
  = Ret (VStr "6230b8a8")
  /\ fst (check_on [] lumberton_title lumberton_filename (start [])) = Ret VNone.
Proof.
  split.
  - destruct (on_stand_ins catalog_found (@return_dataservice_id_one_or_none)
                lumberton_title lumberton_filename (start []) tt
                (listed_response
                   [dataset_entry "6230b8a8" lumberton_title (lumberton_filename +:+ ".csv")])
                eq_refl eq_refl) as [Hfound _].
    rewrite (Hfound _ (VStr "6230b8a8") eq_refl eq_refl eq_refl eq_refl).
    reflexivity.
  - destruct (on_stand_ins [] (@return_dataservice_id_one_or_none)
                lumberton_title lumberton_filename (start []) tt
                (listed_response []) eq_refl eq_refl) as [_ Hnone].
    destruct (Hnone eq_refl) as [Hr _]. rewrite Hr. reflexivity.
Defined.


(** Two tables of one title: the line [1] picks the second, and with no
    line to read the method raises. *)
Lemma return_dataservice_id_several_matches_witness :
  fst (check_on catalog_two lumberton_title lumberton_filename (start ["1"]))
  = Ret (VStr "7341c9b9")
  /\ (exists e,
        fst (check_on catalog_two lumberton_title lumberton_filename (start [])) = Raise e).
Proof.
  destruct (return_dataservice_id_several_matches
              canned_IncoreClient canned_base_url (canned_get catalog_two) canned_urljoin
              lumberton_title lumberton_filename (start ["1"]) tt
              (listed_response
                 [dataset_entry "6230b8a8" lumberton_title (lumberton_filename +:+ ".csv");
                  dataset_entry "7341c9b9" lumberton_title (lumberton_filename +:+ ".csv")])
              _ 2 eq_refl eq_refl eq_refl eq_refl eq_refl) as [Hret _].
  destruct (return_dataservice_id_several_matches
              canned_IncoreClient canned_base_url (canned_get catalog_two) canned_urljoin
              lumberton_title lumberton_filename (start []) tt
              (listed_response
                 [dataset_entry "6230b8a8" lumberton_title (lumberton_filename +:+ ".csv");
                  dataset_entry "7341c9b9" lumberton_title (lumberton_filename +:+ ".csv")])
              _ 2 eq_refl eq_refl eq_refl eq_refl eq_refl) as [_ Hnone].
  split; [|exact (Hnone eq_refl)].
  destruct (Hret (VStr "7341c9b9") _ eq_refl) as (line & rest & k & item & d & H).
  reflexivity.
Defined.

(** Two checks in a row while the catalog holds the table. *)
Lemma publish_check_twice_witness :
  twice (check_on catalog_found lumberton_title lumberton_filename) (start [])
  = (Ret (VStr "6230b8a8", VStr "6230b8a8"),
     {| stdin := []; ext := O;
        trace := [EvIncoreClient;
                  EvGet "https://incore.ncsa.illinois.edu/data/api/datasets/search"
                    lumberton_title;
                  EvIncoreClient;
                  EvGet "https://incore.ncsa.illinois.edu/data/api/datasets/search"
                    lumberton_title] |}).
Proof.
  destruct (on_stand_ins catalog_found (@publish_check_twice)
              (config [("Lumberton_NC", lumberton)]) "Lumberton_NC" lumberton no_locals
              (start []) tt
              (listed_response
                 [dataset_entry "6230b8a8" lumberton_title (lumberton_filename +:+ ".csv")])
              _ (VStr "6230b8a8")
              eq_refl eq_refl eq_refl eq_refl eq_refl eq_refl eq_refl) as [H _].
  exact H.
Defined.

(** C5, as it is written, fails: the catalog holds two datasets with the
    title and the file name of Lumberton; the first check returns the
    one whose number is typed first, the second check the other. *)
Lemma two_matches_two_ids :
  ~ check_repeats canned_IncoreClient canned_base_url (canned_get catalog_two)
      canned_urljoin lumberton_title lumberton_filename (start ["0"; "1"]).
Proof.
  intros H.
  destruct (H tt
              (listed_response
                 [dataset_entry "6230b8a8" lumberton_title (lumberton_filename +:+ ".csv");
                  dataset_entry "7341c9b9" lumberton_title (lumberton_filename +:+ ".csv")])
              eq_refl eq_refl) as (id & _ & Hid).
  - exists (VStr "6230b8a8"). eexists _, _.
    split; [reflexivity|]. split; [left; reflexivity|]. repeat split.
  - vm_compute in Hid. injection Hid as <- Hid. discriminate Hid.
Qed.

(** Three communities, the table of the second one in the catalog: the
    first is generated, the id of the second is returned. *)
Lemma generate_returns_at_first_found_witness :
  fst (on_stand_ins catalog_second (@generate_hui_v2_for_incore)
         (config three_communities) (start []))
  = Ret (VStr "8452dac0").
Proof.
  erewrite (on_stand_ins catalog_second (@generate_returns_at_first_found)
              (config three_communities) [("Lumberton_NC", lumberton)]
              [("Repeated", repeated_county)] "Two" two_counties).
  - reflexivity.
  - reflexivity.
  - vm_compute. reflexivity.
  - vm_compute. reflexivity.
  - reflexivity.
Defined.

(** No community at all. *)
Lemma generate_empty_mapping_witness :
  on_stand_ins [] (@generate_hui_v2_for_incore) (config []) (start [])
  = (Raise UnboundLocalError, start []).
Proof.
  apply (on_stand_ins [] (@generate_empty_mapping)). reflexivity.
Defined.

(** Two counties with two FIPS codes: the blocks are the two frames, in
    the order of the list. *)
Lemma combine_counties_blocks_first_seen_witness :
  exists (evs : list Event) (blocks : list (string * DataFrame)),
    map fst blocks = ["37155"; "48167"] /\ blocks = saved_frames evs.
Proof.
  edestruct (combine_counties_blocks_first_seen
               canned_directory_design canned_run_hui_workflow canned_pass canned_pass
               (config [("Two", two_counties)]) two_counties no_locals (start []))
    as (evs & blocks & _ & _ & _ & Hfs & _ & _ & _ & Hd).
  { vm_compute. reflexivity. }
  exists evs, blocks. split; [exact Hfs|].
  apply Hd. apply (bool_decide_unpack _). vm_compute. reflexivity.
Defined.

Notation "'generate_community_with' to_csv" :=
  (generate_community (X:=nat) (DataStructure:=unit) canned_IncoreClient canned_base_url
     canned_create_dataset canned_add_files "/home/user" canned_directory_design
     canned_run_hui_workflow canned_pass canned_pass canned_income_distribution
     canned_create_codebook tt to_csv)
  (at level 10, to_csv at level 9, only parsing).

Notation "'both_writes_with' to_csv" :=
  (community_run_needs_both_writes (X:=nat) (DataStructure:=unit) canned_IncoreClient
     canned_base_url canned_create_dataset canned_add_files "/home/user"
     canned_directory_design canned_run_hui_workflow canned_pass canned_pass
     canned_income_distribution canned_create_codebook tt to_csv)
  (at level 10, to_csv at level 9, only parsing).

(** A run that writes both files, and a run on a file system that refuses
    the file in the common directory. *)
Lemma community_run_needs_both_writes_witness :
  (exists df top,
      csv_writes
        (trace (snd (generate_community_with canned_to_csv
                       (config [("Lumberton_NC", lumberton)]) "Lumberton_NC" lumberton
                       lumberton_title lumberton_filename no_locals (start []))))
      = [(df, savefile_path "/home/user" top lumberton_filename);
         (df, common_path top lumberton_filename)])
  /\ fst (generate_community_with
            (failing_to_csv
               "OutputData/Robeson County, NC/../../hui_v2-0-0_Lumberton_NC_2010_rs9876.csv")
            (config [("Lumberton_NC", lumberton)]) "Lumberton_NC" lumberton
            lumberton_title lumberton_filename no_locals (start []))
     = Raise OSError.
Proof.
  split.
  - destruct (both_writes_with canned_to_csv
                (config [("Lumberton_NC", lumberton)]) "Lumberton_NC" lumberton
                lumberton_title lumberton_filename no_locals (start [])) as [Hboth _].
    remember (generate_community_with canned_to_csv
                (config [("Lumberton_NC", lumberton)]) "Lumberton_NC" lumberton
                lumberton_title lumberton_filename no_locals (start [])) as r eqn:E.
    destruct r as [[t|e] w']; [|vm_compute in E; discriminate E].
    destruct (Hboth t w' eq_refl) as (evs & cl & raw & df & ofs & w1 & top & _ & _ & Ht & Hcsv).
    exists df, top. cbn [snd]. rewrite Ht. exact Hcsv.
  - eapply (proj2 (both_writes_with
                     (failing_to_csv
                        "OutputData/Robeson County, NC/../../hui_v2-0-0_Lumberton_NC_2010_rs9876.csv")
                     (config [("Lumberton_NC", lumberton)]) "Lumberton_NC" lumberton
                     lumberton_title lumberton_filename no_locals (start []))).
    + vm_compute. reflexivity.
    + reflexivity.
    + right. eexists. split; vm_compute; reflexivity.
Defined.

(** A run in a fresh world and a run in a world that has seen 41
    operations before, with a line typed that nobody reads. *)
Lemma generate_twice_tables_agree_witness :
  let run := on_stand_ins [] (@generate_hui_v2_for_incore)
               (config [("Lumberton_NC", lumberton); ("Two", two_counties)]) in
  let later := {| stdin := ["0"]; ext := 41%nat; trace := [EvIncoreClient] |} in
  exists evs1 evs2,
    trace (snd (run (start []))) = trace (start []) ++ evs1 /\
    trace (snd (run later)) = trace later ++ evs2 /\
    csv_writes evs1 = csv_writes evs2 /\
    length (csv_writes evs1) = 4%nat.
Proof.
  cbv zeta.
  destruct (on_stand_ins [] (@generate_twice_tables_agree)
              ltac:(constructor; intros; cbn in *; congruence)
              (config [("Lumberton_NC", lumberton); ("Two", two_counties)])
              (start []) {| stdin := ["0"]; ext := 41%nat; trace := [EvIncoreClient] |})
    as (evs1 & evs2 & Ht1 & Ht2 & _ & Hall).
  exists evs1, evs2. split; [exact Ht1|]. split; [exact Ht2|].
  split.
  - apply Hall; eexists _, _; vm_compute; reflexivity.
  - cbn [trace start app] in Ht1. rewrite <- Ht1. vm_compute. reflexivity.
Defined.

(** The table of two units after a join: the code [4.0] beside a missing
    value comes back as it went in. *)
Lemma applymap_keeps_floats_beside_nan_witness :
  applymap remove_dot0 join_artifact = Ret join_artifact
  /\ Forall (fun c' => is_float c' = true) (column 1 join_artifact).
Proof.
  split; [vm_compute; reflexivity|].
  refine (proj2 (applymap_keeps_floats_beside_nan join_artifact join_artifact 1 FNan
                   _ _ _ _)).
  - vm_compute. reflexivity.
  - repeat constructor.
  - right. left. reflexivity.
  - reflexivity.
Defined.

(** With the answer class of the requests library the branch for several
    matches stops at the first candidate it tries to print: the answer
    cannot be subscripted. *)
Lemma several_matches_requests_response (title output_filename : string)
    (matches : list pyval) (content_length : nat) (lines : list string) :
  (1 < length matches)%nat ->
  (0 < content_length)%nat ->
  fst (return_dataservice_id canned_IncoreClient canned_base_url
         (fun _ _ _ _ => Ret (requests_response (VList matches) content_length))
         canned_urljoin title output_filename (start lines))
  = Raise TypeError.
Proof.
  intros Hm Hc.
  unfold return_dataservice_id, check_file_on_incore, loginto_incore_dataservice,
    bind, query, ret, lift. cbn -[Nat.div].
  replace (Z.of_nat (length matches) =? 1) with false by lia.
  replace (Z.of_nat (length matches) =? 0) with false by lia.
  destruct (Nat.div (content_length + 127) 128) as [|k] eqn:E.
  - apply Nat.div_small_iff in E; lia.
  - reflexivity.
Qed.

(** ** The further properties at work on the stand-ins *)

(** A folder that is not there yet: the first construction makes it, the
    second finds it. *)
Lemma init_twice_witness :
  init listed_exists listed_mkdir [("Lumberton_NC", lumberton)] 9876 "2.0.0" "v2-0-0"
    2010 "OutputData" ∅ true ["OutputData"]
  = (Ret (config [("Lumberton_NC", lumberton)]), ["OutputData"]).
Proof.
  apply (init_twice listed_exists listed_mkdir) with (fs := []).
  - intros p a b u. unfold listed_mkdir.
    destruct (listed_exists p a); [discriminate|]. intros [= _ <-].
    unfold listed_exists. cbn. now rewrite String.eqb_refl.
  - reflexivity.
Defined.

(** A sole match without files, with an empty file list, and an answer
    that is an object with one key. *)
Lemma return_dataservice_id_malformed_match_witness :
  fst (check_on [(lumberton_title, [VDict [("id", VStr "6230b8a8")]])]
         lumberton_title lumberton_filename (start []))
  = Raise KeyError
  /\ fst (check_on [(lumberton_title,
                     [VDict [("id", VStr "6230b8a8"); ("fileDescriptors", VList [])]])]
            lumberton_title lumberton_filename (start []))
     = Raise IndexError.
Proof.
  split.
  - destruct (return_dataservice_id_malformed_match
                canned_IncoreClient canned_base_url
                (canned_get [(lumberton_title, [VDict [("id", VStr "6230b8a8")]])])
                canned_urljoin lumberton_title lumberton_filename (start []) tt
                (listed_response [VDict [("id", VStr "6230b8a8")]])
                eq_refl eq_refl) as (Hkey & _ & _).
    rewrite (Hkey _ eq_refl eq_refl). reflexivity.
  - destruct (return_dataservice_id_malformed_match
                canned_IncoreClient canned_base_url
                (canned_get
                   [(lumberton_title,
                     [VDict [("id", VStr "6230b8a8"); ("fileDescriptors", VList [])]])])
                canned_urljoin lumberton_title lumberton_filename (start []) tt
                (listed_response
                   [VDict [("id", VStr "6230b8a8"); ("fileDescriptors", VList [])]])
                eq_refl eq_refl) as (_ & Hidx & _).
    rewrite (Hidx _ eq_refl eq_refl). reflexivity.
Defined.

(** Two matches in an answer of the class of the requests library: the
    check raises [TypeError] and the line that was typed is still
    there. *)
Lemma return_dataservice_id_listing_fails_first_witness :
  let answer :=
    requests_response
      (VList [dataset_entry "6230b8a8" lumberton_title "a.csv";
              dataset_entry "7341c9b9" lumberton_title "a.csv"]) 300 in
  let r := return_dataservice_id canned_IncoreClient canned_base_url
             (fun _ _ _ _ => Ret answer) canned_urljoin
             lumberton_title lumberton_filename (start ["1"]) in
  fst r = Raise TypeError /\ stdin (snd r) = ["1"].
Proof.
  cbv zeta.
  rewrite (return_dataservice_id_listing_fails_first
             canned_IncoreClient canned_base_url
             (fun _ _ _ _ =>
                Ret (requests_response
                       (VList [dataset_entry "6230b8a8" lumberton_title "a.csv";
                               dataset_entry "7341c9b9" lumberton_title "a.csv"]) 300))
             canned_urljoin lumberton_title lumberton_filename (start ["1"]) tt
             _ _ 2 2 TypeError eq_refl eq_refl eq_refl eq_refl eq_refl eq_refl eq_refl).
  split; reflexivity.
Defined.

(** The county list with one FIPS code two times: one key, and under it
    the frame saved last. *)
Lemma combine_counties_last_frame_per_code_witness :
  exists evs d,
    map fst (saved_frames evs) = ["37155"; "37155"] /\
    map fst d = ["37155"] /\
    assoc "37155" d = assoc "37155" (rev (saved_frames evs)).
Proof.
  edestruct (combine_counties_last_frame_per_code
               canned_directory_design canned_run_hui_workflow canned_pass canned_pass
               (config [("Repeated", repeated_county)]) repeated_county no_locals
               (start [])) as (evs & d & _ & Hk & Hd & Ha & _).
  { vm_compute. reflexivity. }
  exists evs, d. split; [exact Hk|]. split; [exact Hd|]. apply Ha.
Defined.

(** A community without counties that the catalog does not hold. *)
Lemma community_turn_no_county_witness :
  fst (on_stand_ins [] (@community_turn)
         (config [("Empty", {| community_name := "Empty"; counties := [] |})])
         "Empty" {| community_name := "Empty"; counties := [] |} no_locals (start []))
  = Raise ValueError.
Proof.
  erewrite (on_stand_ins [] (@community_turn_no_county)).
  - reflexivity.
  - reflexivity.
  - vm_compute. reflexivity.
Defined.

(** The write to the common directory is refused: the table under the
    folder of the run is in the log, alone. *)
Lemma generate_community_write_failures_witness :
  let r := generate_community_with
             (failing_to_csv
                "OutputData/Robeson County, NC/../../hui_v2-0-0_Lumberton_NC_2010_rs9876.csv")
             (config [("Lumberton_NC", lumberton)]) "Lumberton_NC" lumberton
             lumberton_title lumberton_filename no_locals (start []) in
  fst r = Raise OSError /\ length (csv_writes (trace (snd r))) = 1%nat.
Proof.
  cbv zeta.
  edestruct (generate_community_write_failures (X:=nat) (DataStructure:=unit)
               canned_IncoreClient canned_base_url canned_create_dataset canned_add_files
               "/home/user" canned_directory_design canned_run_hui_workflow canned_pass
               canned_pass canned_income_distribution canned_create_codebook tt
               (failing_to_csv
                  "OutputData/Robeson County, NC/../../hui_v2-0-0_Lumberton_NC_2010_rs9876.csv")
               (config [("Lumberton_NC", lumberton)]) "Lumberton_NC" lumberton
               lumberton_title lumberton_filename no_locals (start []))
    as (_ & _ & Hsecond).
  { vm_compute. reflexivity. }
  erewrite Hsecond; [split; reflexivity|reflexivity|vm_compute; reflexivity
                    |vm_compute; reflexivity].
Defined.

(** A run that generates one community returns the id of the dataset it
    created. *)
Lemma generate_never_returns_None_witness :
  is_not_None (VStr "id-of-Housing Unit Inventory v2.0.0 data for Lumberton, NC") = true.
Proof.
  eapply (on_stand_ins [] (@generate_never_returns_None)
            (config [("Lumberton_NC", lumberton)]) (start [])).
  vm_compute. reflexivity.
Defined.

(** A completed run: the dataset is in the log and so are both tables. *)
Lemma generate_community_uploads_last_witness :
  exists evs,
    (exists md, In (EvCreateDataset md) evs) /\
    (forall md, In (EvCreateDataset md) evs -> length (csv_writes evs) = 2%nat).
Proof.
  edestruct (on_stand_ins [] (@generate_community_uploads_last)
               (config [("Lumberton_NC", lumberton)]) "Lumberton_NC" lumberton
               lumberton_title lumberton_filename no_locals (start []))
    as (evs & Ht & Hboth & _).
  { apply surjective_pairing. }
  exists evs. split; [|exact Hboth].
  cbn [trace start app] in Ht. rewrite <- Ht. vm_compute. eexists.
  do 11 right. left. reflexivity.
Defined.

(** The code [4.0] twice, and the text [v2.0]. *)
Lemma remove_dot0_idempotent_witness :
  remove_dot0 (CInt 4) = Ret (CInt 4).
Proof.
  apply (remove_dot0_idempotent (CFloat (FFinite false "4" 1))). reflexivity.
Defined.

Lemma remove_dot0_text_raises_witness :
  remove_dot0 (CStr "v2.0") = Raise ValueError.
Proof.
  apply (proj1 remove_dot0_text_raises). reflexivity.
Defined.

(** The seeds 9876 and 1234. *)
Lemma output_filename_of_seed_witness :
  output_filename_of (with_seed (config []) 9876) "Lumberton_NC"
  <> output_filename_of (with_seed (config []) 1234) "Lumberton_NC".
Proof.
  apply output_filename_of_seed. discriminate.
Defined.

(** The run for Lumberton: the title and the file name of the dataset it
    uploads. *)
Lemma generate_community_uploads_what_is_checked_witness :
  exists evs county_list id,
    In (EvCreateDataset {| md_title := lumberton_title;
                           md_description := hui_description county_list;
                           md_dataType := "incore:housingUnitInventory";
                           md_format := "table" |}) evs /\
    In (EvAddFiles id
          ["OutputData/Robeson County, NC" +:+ "/" +:+ lumberton_filename +:+ ".csv"]) evs.
Proof.
  edestruct (generate_community_uploads_what_is_checked (X:=nat) (DataStructure:=unit)
               canned_IncoreClient canned_base_url canned_create_dataset canned_add_files
               "/home/user" canned_directory_design canned_run_hui_workflow canned_pass
               canned_pass canned_income_distribution canned_create_codebook tt
               canned_to_csv
               (config [("Lumberton_NC", lumberton)]) "Lumberton_NC" lumberton
               lumberton_title lumberton_filename no_locals (start []))
    as (evs & cl & top & id & ofs & _ & Ht & Htop & Hmd & Hfiles).
  { vm_compute. reflexivity. }
  injection Ht as _ <-.
  assert (top = "OutputData/Robeson County, NC") as -> by (vm_compute in Htop; congruence).
  now exists evs, cl, id.
Defined.

(** ** Values checked by evaluation *)

Example int_of_str_1 : int_of_str " 12 " = Ret 12.
Proof. reflexivity. Qed.
Example int_of_str_neg : int_of_str "-3" = Ret (-3).
Proof. reflexivity. Qed.
Example int_of_str_us : int_of_str "1_000" = Ret 1000.
Proof. reflexivity. Qed.
Example int_of_str_float : int_of_str "4.0" = Raise ValueError.
Proof. reflexivity. Qed.
Example int_of_str_empty : int_of_str "" = Raise ValueError.
Proof. reflexivity. Qed.
Example remove_dot0_code : remove_dot0 (CFloat (FFinite false "4" 1)) = Ret (CInt 4).
Proof. reflexivity. Qed.
Example remove_dot0_income :
  remove_dot0 (CFloat (FFinite false "452315" 5)) = Ret (CFloat (FFinite false "452315" 5)).
Proof. reflexivity. Qed.
Example float_repr_income : float_repr (FFinite false "452315" 5) = "45231.5".
Proof. reflexivity. Qed.
Example float_repr_small : float_repr (FFinite false "1" (-4)) = "1e-05".
Proof. reflexivity. Qed.
Example float_repr_frac : float_repr (FFinite true "25" (-1)) = "-0.025".
Proof. reflexivity. Qed.
Example float_repr_big : float_repr (FFinite false "12" 17) = "1.2e+16".
Proof. reflexivity. Qed.
Example float_repr_block :
  float_repr (FFinite false "371559601011" 15) = "371559601011000.0".
Proof. reflexivity. Qed.
Example remove_dot0_str : remove_dot0 (CStr "v2.0") = Raise ValueError.
Proof. reflexivity. Qed.
Example remove_dot0_minus_zero : remove_dot0 (CFloat (FFinite true "0" 1)) = Ret (CInt 0).
Proof. reflexivity. Qed.
Example remove_dot0_large :
  remove_dot0 (CFloat (FFinite false "1" 17)) = Ret (CFloat (FFinite false "1" 17)).
Proof. reflexivity. Qed.
Example remove_dot0_nan : remove_dot0 (CFloat FNan) = Ret (CFloat FNan).
Proof. reflexivity. Qed.
Example float_of_Z_code : float_of_Z 4 = FFinite false "4" 1.
Proof. reflexivity. Qed.
Example float_of_Z_income : float_of_Z 50000 = FFinite false "5" 5.
Proof. reflexivity. Qed.
Example float_of_Z_negative : float_of_Z (-120) = FFinite true "12" 3.
Proof. reflexivity. Qed.
Example infer_dtype_codes : infer_dtype [CInt 4; CInt 2] = DtInt.
Proof. reflexivity. Qed.
Example infer_dtype_missing : infer_dtype [CInt 4; CFloat FNan] = DtFloat.
Proof. reflexivity. Qed.
Example infer_dtype_none : infer_dtype [CInt 4; CNone] = DtFloat.
Proof. reflexivity. Qed.
Example infer_dtype_text : infer_dtype [CInt 4; CStr "a"] = DtObject.
Proof. reflexivity. Qed.
Example infer_dtype_flags : infer_dtype [CBool true; CBool false] = DtBool.
Proof. reflexivity. Qed.

(** A column of whole floats becomes a column of ints; beside a text the
    int stays in a column of objects; beside a fractional value the
    whole floats stay floats. *)
Example applymap_whole_column :
  applymap remove_dot0 [[CFloat (FFinite false "4" 1)]; [CFloat (FFinite false "2" 1)]]
  = Ret [[CInt 4]; [CInt 2]].
Proof. reflexivity. Qed.
Example applymap_object_column :
  applymap remove_dot0 [[CStr "vacant"]; [CFloat (FFinite false "4" 1)]]
  = Ret [[CStr "vacant"]; [CInt 4]].
Proof. reflexivity. Qed.
Example applymap_income_column :
  applymap remove_dot0 [[CFloat (FFinite false "5" 5)]; [CFloat (FFinite false "452315" 5)]]
  = Ret [[CFloat (FFinite false "5" 5)]; [CFloat (FFinite false "452315" 5)]].
Proof. reflexivity. Qed.
Example dict_set_keeps_place :
  dict_set "37155" 2 [("37155", 1); ("48167", 3)] = [("37155", 2); ("48167", 3)].
Proof. reflexivity. Qed.
Example pd_concat_nothing : pd_concat [] = Raise ValueError.
Proof. reflexivity. Qed.

(** The county list with one FIPS code two times: two frames are saved,
    the combined table is the second one. *)
Example combine_repeated_county :
  let r := combine_counties canned_directory_design canned_run_hui_workflow
             canned_pass canned_pass (config [("Repeated", repeated_county)])
             repeated_county no_locals (start []) in
  match fst r with
  | Ret (_, df, _, _) =>
      df = [[CStr "37155"; CStr "Robeson County";
             CFloat (FFinite false "4" 1); CFloat (FFinite false "452315" 5)]]
      /\ length (saved_frames (trace (snd r))) = 2%nat
  | Raise _ => False
  end.
Proof. vm_compute. split; reflexivity. Qed.
